(** * wonderwords: the word filter and the random sampler of [random_word.py]

    A shallow embedding of [RandomWord] (module [wonderwords.random_word]):
    length validation, the two bisections over a category sorted by word
    length, the category/length/prefix/suffix/regex filter, and the
    sampling wrapper [random_words]. *)

From Stdlib Require Import ZArith Lia Ascii String List.
From stdpp Require Import base tactics option list sets gmap strings pretty sorting.
From Equations Require Import Equations.

Local Open Scope string_scope.
Local Open Scope Z_scope.

(** ** Python values used by the module *)

(** The exceptions the module raises or lets through.  [ReError] is
    [re.error], raised by [re.fullmatch] on a pattern it cannot compile;
    [IndexError] is what list indexing and [random.choice] raise. *)
Inductive exn : Type :=
  | TypeError (msg : string)
  | ValueError (msg : string)
  | NoWordsToChoseFrom (msg : string)
  | IndexError
  | ReError (pattern : string).

(** A call either returns a value or raises. *)
Inductive result (A : Type) : Type :=
  | Ok (a : A)
  | Raise (e : exn).
Arguments Ok {A} a.
Arguments Raise {A} e.

#[global] Instance result_ret : MRet result := fun A a => Ok a.
#[global] Instance result_bind : MBind result := fun A B k r =>
  match r with
  | Ok a => k a
  | Raise e => Raise e
  end.
#[global] Instance result_fmap : FMap result := fun A B f r =>
  match r with
  | Ok a => Ok (f a)
  | Raise e => Raise e
  end.

(** An argument annotated [Optional[int]]: [None], an [int], or a value of
    some other type (which [_validate_lengths] rejects). *)
Inductive pyarg : Type :=
  | PyNone
  | PyInt (n : Z)
  | PyOther.

(** *** Strings *)

Definition chars (s : string) : list ascii := list_ascii_of_string s.
Definition str (cs : list ascii) : string := string_of_list_ascii cs.

(** [len(word)] *)
Definition len (w : string) : Z := Z.of_nat (String.length w).

(** [word.startswith(p)] *)
Definition startswith (w p : string) : bool :=
  bool_decide (chars p `prefix_of` chars w).

(** [word.endswith(s)] *)
Definition endswith (w s : string) : bool :=
  bool_decide (chars s `suffix_of` chars w).

(** [s[::-1]] *)
Definition reversed (s : string) : string := str (reverse (chars s)).

(** [" " in word] *)
Definition has_space (w : string) : bool :=
  bool_decide (" "%char ∈ chars w).

(** *** Lists *)

(** [l[i]] for an [int] index: negative indices count from the end, and an
    index outside [-len(l), len(l))] raises [IndexError]. *)
Definition py_index {A} (l : list A) (i : Z) : result A :=
  let n := Z.of_nat (length l) in
  let j := if i <? 0 then i + n else i in
  if (0 <=? j) && (j <? n) then
    match l !! Z.to_nat j with
    | Some x => Ok x
    | None => Raise IndexError
    end
  else Raise IndexError.

(** One bound of a slice, as [slice.indices] normalises it. *)
Definition slice_bound (n i : Z) : Z :=
  let j := if i <? 0 then i + n else i in
  Z.max 0 (Z.min n j).

(** [l[left:right]], where [right] may be [None]. *)
Definition py_slice {A} (l : list A) (left : Z) (right : option Z) : list A :=
  let n := Z.of_nat (length l) in
  let lo := slice_bound n left in
  let hi := match right with Some r => slice_bound n r | None => n end in
  take (Z.to_nat (hi - lo)) (drop (Z.to_nat lo) l).

(** [word_list.sort(key=len)]: a stable sort by length, here by insertion
    (a word goes before the first word that is not shorter, so that words
    of equal length keep their order). *)
Fixpoint insert_by_len (w : string) (l : list string) : list string :=
  match l with
  | [] => [w]
  | x :: l' =>
      if decide (len w <= len x) then w :: l else x :: insert_by_len w l'
  end.

Definition sort_by_len (l : list string) : list string :=
  foldr insert_by_len [] l.

(** A [for x in xs:] loop whose body may raise, threading the variables
    the body assigns. *)
Fixpoint for_each {A S} (xs : list A) (body : A -> S -> result S) (s : S)
  : result S :=
  match xs with
  | [] => Ok s
  | x :: xs' => s' ← body x s; for_each xs' body s'
  end.

(** Truth value of a [str]: the empty string is false. *)
Definition nonempty (s : string) : bool := bool_decide (s ≠ "").

(** Truth value of an [Optional[List[str]]]: [None] and [[]] are false. *)
Definition some_items (l : option (list string)) : bool :=
  match l with
  | Some (_ :: _) => true
  | _ => false
  end.

(** ** The prefix index ([_trie.Trie]) *)

Module Trie.

(** Modelled from the spec: the module [_trie] (class [Trie], its
    [insert] and [get_words_that_start_with]) is not among the sources.
    Section 4.1 describes it: a node holds a marker for a complete word
    ending there and a mapping from the next character to a child node;
    the root has no character. *)
#[local] Unset Elimination Schemes.
Inductive TrieNode : Type :=
  | Node (is_end : bool) (children : list (ascii * TrieNode)).
#[local] Set Elimination Schemes.

Definition is_end (n : TrieNode) : bool :=
  let 'Node e _ := n in e.
Definition children (n : TrieNode) : list (ascii * TrieNode) :=
  let 'Node _ ch := n in ch.

(** Modelled from the spec: a fresh trie is a root with no child. *)
Definition empty : TrieNode := Node false [].

Fixpoint child (c : ascii) (ch : list (ascii * TrieNode)) : option TrieNode :=
  match ch with
  | [] => None
  | (c', n) :: ch' => if decide (c = c') then Some n else child c ch'
  end.

(** The child under [c] replaced by [f] of it; a missing child is
    created from the empty node first. *)
Fixpoint with_child (c : ascii) (f : TrieNode -> TrieNode)
    (ch : list (ascii * TrieNode)) : list (ascii * TrieNode) :=
  match ch with
  | [] => [(c, f empty)]
  | (c', n) :: ch' =>
      if decide (c = c') then (c', f n) :: ch'
      else (c', n) :: with_child c f ch'
  end.

(** Modelled from the spec: [insert(word)] walks the characters from the
    root, creating the missing children, and marks the node reached as
    the end of a word; the empty string marks the root. *)
Fixpoint insert_chars (cs : list ascii) (n : TrieNode) : TrieNode :=
  match cs with
  | [] => Node true (children n)
  | c :: cs' => Node (is_end n) (with_child c (insert_chars cs') (children n))
  end.

Definition insert (t : TrieNode) (word : string) : TrieNode :=
  insert_chars (chars word) t.

(** The walk along [prefix]: [None] as soon as a character has no
    child. *)
Fixpoint walk (cs : list ascii) (n : TrieNode) : option TrieNode :=
  match cs with
  | [] => Some n
  | c :: cs' => n' ← child c (children n); walk cs' n'
  end.

(** The complete words reachable from a node, depth first; [path] holds
    the characters from the root to the node, last one first. *)
Fixpoint collect (path : list ascii) (n : TrieNode) : list string :=
  let 'Node e ch := n in
  (if e then [str (reverse path)] else [])
  ++ flat_map (fun p => collect (fst p :: path) (snd p)) ch.

(** Modelled from the spec: [wordsWithPrefix(prefix)] walks [prefix] from
    the root, returns the empty set when a character has no child, and
    otherwise collects the complete words below the node reached. *)
Definition get_words_that_start_with (t : TrieNode) (prefix : string)
  : gset string :=
  match walk (chars prefix) t with
  | None => ∅
  | Some n => list_to_set (collect (reverse (chars prefix)) n)
  end.

End Trie.

(** ** The pattern matcher and the random source *)

(** [re.fullmatch(pattern, word)] belongs to Python's [re] module.  It is a
    parameter of the development: [Some b] tells whether the whole word
    matches, [None] stands for the [re.error] raised on a pattern that does
    not compile. *)
Definition matcher : Type := string -> string -> option bool.

(** The state of the [random] module, as the sequence of its future raw
    draws; [_randbelow(n)] consumes one draw. *)
Definition rng : Type := nat -> nat.

Definition _randbelow (g : rng) (n : nat) : nat * rng :=
  ((g 0 `mod` n)%nat, fun i => g (S i)).

(** [random.choice(seq)] *)
Definition choice {A} (g : rng) (seq : list A) : result (A * rng) :=
  match seq with
  | [] => Raise IndexError
  | _ :: _ =>
      let '(i, g) := _randbelow g (length seq) in
      x ← py_index seq (Z.of_nat i); Ok (x, g)
  end.

(** [x[i], x[j] = x[j], x[i]] *)
Definition swap {A} (x : list A) (i j : nat) : list A :=
  match x !! i, x !! j with
  | Some xi, Some xj => <[j:=xi]> (<[i:=xj]> x)
  | _, _ => x
  end.

(** [random.shuffle(x)]: for [i] from [len(x) - 1] down to 1, swap [x[i]]
    with [x[j]] for a random [j] in [0, i]. *)
Fixpoint shuffle_from {A} (i : nat) (g : rng) (x : list A) : list A * rng :=
  match i with
  | O => (x, g)
  | S i' =>
      let '(j, g) := _randbelow g (S i) in
      shuffle_from i' g (swap x i j)
  end.

Definition shuffle {A} (g : rng) (x : list A) : list A * rng :=
  shuffle_from (length x - 1) g x.

(** [l.remove(x)]: drops the first occurrence, [ValueError] without one. *)
Fixpoint py_remove (x : string) (l : list string) : result (list string) :=
  match l with
  | [] => Raise (ValueError "list.remove(x): x not in list")
  | y :: l' =>
      if decide (x = y) then Ok l' else l'' ← py_remove x l'; Ok (y :: l'')
  end.

(** ** A matcher for a fragment of the pattern syntax *)

(** The general results hold for every [matcher].  The examples need one
    that can be run: [fragment_fullmatch] covers the patterns built from
    ordinary characters, [.], the postfix operators [*], [+] and [?],
    alternation and groups, read as [re] reads them.  On such a pattern it
    gives [None] where [re] raises [re.error] (an unclosed or unopened
    parenthesis, an operator with nothing to repeat).  Patterns using
    classes or a bracket, escapes, anchors, counted repetition, or two
    postfix operators in a row (which [re] reads as a lazy or possessive
    form, as in [*?], or refuses, as in [**]) are outside the fragment;
    it gives [None] for them too, and the only such pattern in an
    example is [a**], which [re] refuses as well. *)
Module Fragment.

Inductive re : Type :=
  | Eps
  | Chr (c : ascii)
  | Dot
  | Cat (a b : re)
  | Alt (a b : re)
  | Star (a : re).

Definition special (c : ascii) : bool :=
  bool_decide (c ∈ chars "()[]{}*+?|\^$.").

(** One optional postfix operator after an atom. *)
Definition postfix (a : re) (s : list ascii) : option (re * list ascii) :=
  let repeated (s' : list ascii) :=
    match s' with
    | c :: _ => bool_decide (c ∈ chars "*+?{")
    | [] => false
    end in
  match s with
  | "*"%char :: s' => if repeated s' then None else Some (Star a, s')
  | "+"%char :: s' => if repeated s' then None else Some (Cat a (Star a), s')
  | "?"%char :: s' => if repeated s' then None else Some (Alt a Eps, s')
  | _ => Some (a, s)
  end.

Fixpoint parse_alt (fuel : nat) (s : list ascii) : option (re * list ascii) :=
  match fuel with
  | O => None
  | S fuel =>
      '(a, s) ← parse_seq fuel s;
      match s with
      | "|"%char :: s' => '(b, s'') ← parse_alt fuel s'; Some (Alt a b, s'')
      | _ => Some (a, s)
      end
  end
with parse_seq (fuel : nat) (s : list ascii) : option (re * list ascii) :=
  match fuel with
  | O => None
  | S fuel =>
      match s with
      | [] => Some (Eps, s)
      | "|"%char :: _ => Some (Eps, s)
      | ")"%char :: _ => Some (Eps, s)
      | _ =>
          '(a, s) ← parse_atom fuel s;
          '(a, s) ← postfix a s;
          '(b, s) ← parse_seq fuel s;
          Some (Cat a b, s)
      end
  end
with parse_atom (fuel : nat) (s : list ascii) : option (re * list ascii) :=
  match fuel with
  | O => None
  | S fuel =>
      match s with
      | [] => None
      | "("%char :: s' =>
          '(a, s'') ← parse_alt fuel s';
          match s'' with
          | ")"%char :: s''' => Some (a, s''')
          | _ => None
          end
      | "."%char :: s' => Some (Dot, s')
      | c :: s' => if special c then None else Some (Chr c, s')
      end
  end.

Definition parse (pattern : string) : option re :=
  let s := chars pattern in
  match parse_alt (3 * length s + 3) s with
  | Some (a, []) => Some a
  | _ => None
  end.

Fixpoint nullable (a : re) : bool :=
  match a with
  | Eps | Star _ => true
  | Chr _ | Dot => false
  | Cat a b => nullable a && nullable b
  | Alt a b => nullable a || nullable b
  end.

(** What remains to be matched after reading [c]. *)
Fixpoint derive (c : ascii) (a : re) : option re :=
  match a with
  | Eps => None
  | Chr c' => if decide (c = c') then Some Eps else None
  | Dot => if decide (c = "010"%char) then None else Some Eps
  | Cat a b =>
      let first := (fun a' => Cat a' b) <$> derive c a in
      if nullable a then
        match first, derive c b with
        | Some x, Some y => Some (Alt x y)
        | Some x, None => Some x
        | None, y => y
        end
      else first
  | Alt a b =>
      match derive c a, derive c b with
      | Some x, Some y => Some (Alt x y)
      | Some x, None => Some x
      | None, y => y
      end
  | Star a' => (fun d => Cat d (Star a')) <$> derive c a'
  end.

Fixpoint matches (a : re) (w : list ascii) : bool :=
  match w with
  | [] => nullable a
  | c :: w' =>
      match derive c a with
      | Some a' => matches a' w'
      | None => false
      end
  end.

Definition fragment_fullmatch : matcher := fun pattern word =>
  (fun a => matches a (chars word)) <$> parse pattern.

End Fragment.
(** ** The module [random_word] *)

(** The members of the enum [Defaults]. *)
Inductive Defaults : Type := NOUNS | VERBS | ADJECTIVES | PROFANITIES.

(** A keyword argument of the constructor: a list of words, or a member of
    [Defaults]. *)
Inductive category_source : Type :=
  | Words (word_list : list string)
  | Default (d : Defaults).

(** The class [RandomWord]: [RandomWord.t] is an instance, the other
    definitions are its methods in the order their callers need them. *)
Module RandomWord.

(** An instance: the categories, and the two tries when
    [enhanced_prefixes] was set. *)
Record t : Type := {
  _categories : gmap string (list string);
  _tries : option (Trie.TrieNode * Trie.TrieNode)
}.

(** *** [_validate_lengths] *)

Definition is_int_or_none (a : pyarg) : bool :=
  match a with
  | PyOther => false
  | _ => true
  end.

(** [a is not None and a < 0], for an argument already known to be an
    [int] or [None]. *)
Definition negative (a : pyarg) : bool :=
  match a with
  | PyInt n => n <? 0
  | _ => false
  end.

Definition as_option (a : pyarg) : option Z :=
  match a with
  | PyInt n => Some n
  | _ => None
  end.

Definition _validate_lengths (word_min_length word_max_length : pyarg)
  : result (option Z * option Z) :=
  if negb (is_int_or_none word_min_length) then
    Raise (TypeError "word_min_length must be type int or None")
  else if negb (is_int_or_none word_max_length) then
    Raise (TypeError "word_max_length must be type int or None")
  else
    _ ← match word_min_length, word_max_length with
         | PyInt lo, PyInt hi =>
             if (lo >? hi) && negb (hi =? 0) then
               Raise (ValueError
                        "word_min_length cannot be greater than word_max_length")
             else Ok tt
         | _, _ => Ok tt
         end;
    let word_min_length :=
      if negative word_min_length then PyNone else word_min_length in
    let word_max_length :=
      if negative word_max_length then PyNone else word_max_length in
    Ok (as_option word_min_length, as_option word_max_length).

(** *** [_bisect_by_length] *)

(** [middle = left + (right - left) // 2] *)
Definition middle_of (left_ right_ : Z) : Z :=
  left_ + (right_ - left_) `div` 2.

Lemma middle_of_bounds left_ right_ :
  left_ <= right_ -> left_ <= middle_of left_ right_ <= right_.
Proof.
  intros H. unfold middle_of.
  assert (0 <= (right_ - left_) `div` 2 <= right_ - left_); [|lia].
  split; [apply Z.div_pos; lia | apply Z.div_le_upper_bound; lia].
Qed.

(** The [while left <= right] loop.  Each turn strictly shrinks the window
    [right - left + 1], which is the measure of the recursion. *)
Equations? bisect_loop (words : list string) (target_length : Z)
    (left_ right_ : Z) : result Z
    by wf (Z.to_nat (right_ - left_ + 1)) lt :=
  bisect_loop words target_length left_ right_
    with decide (left_ <= right_) := {
    | right _ => Ok left_
    | left Hle with py_index words (middle_of left_ right_) := {
      | Raise e => Raise e
      | Ok w with decide (len w < target_length) := {
        | left _ =>
            bisect_loop words target_length (middle_of left_ right_ + 1) right_
        | right _ =>
            bisect_loop words target_length left_ (middle_of left_ right_ - 1)
        }
      }
    }.
Proof.
  all: pose proof (middle_of_bounds left_ right_ Hle); lia.
Defined.

Definition _bisect_by_length (words : list string) (target_length : Z)
  : result Z :=
  bisect_loop words target_length 0 (Z.of_nat (length words) - 1).

(** *** [_get_words_of_length] *)

Definition _get_words_of_length (word_list : list string)
    (min_length max_length : option Z) : result (list string) :=
  left_index ← match min_length with
               | None => Ok 0
               | Some lo => _bisect_by_length word_list lo
               end;
  right_index ← match max_length with
                | None => Ok None
                | Some hi => Some <$> _bisect_by_length word_list (hi + 1)
                end;
  Ok (py_slice word_list left_index right_index).


(** *** [_custom_categories] and [__init__] *)

Section construction.
(** [_default_categories], the bundled word lists read when the module
    is loaded; the asset files are not among the sources. *)
Context (_default_categories : Defaults -> list string).

Definition _custom_categories
    (custom_categories : list (string * category_source))
  : gmap string (list string) :=
  foldl (fun out '(name, words) =>
           let word_list :=
             match words with
             | Default d => _default_categories d
             | Words l => l
             end in
           <[name := sort_by_len word_list]> out)
        ∅ custom_categories.

(** The categories used when no keyword argument is given. *)
Definition default_kwargs : list (string * category_source) :=
  [("noun", Default NOUNS); ("verb", Default VERBS);
   ("adjective", Default ADJECTIVES); ("nouns", Default NOUNS);
   ("verbs", Default VERBS); ("adjectives", Default ADJECTIVES)].

(** The two tries: every word of every category goes into the first,
    its reversal into the second. *)
Definition build_tries (categories : gmap string (list string))
  : Trie.TrieNode * Trie.TrieNode :=
  foldl (fun tries '(_, category) =>
           foldl (fun '(t0, t1) word =>
                    (Trie.insert t0 word, Trie.insert t1 (reversed word)))
                 tries category)
        (Trie.empty, Trie.empty) (map_to_list categories).

Definition __init__ (enhanced_prefixes : bool)
    (kwargs : list (string * category_source)) : t :=
  let categories :=
    match kwargs with
    | _ :: _ => _custom_categories kwargs
    | [] => _custom_categories default_kwargs
    end in
  {| _categories := categories;
     _tries := if enhanced_prefixes then Some (build_tries categories)
               else None |}.
End construction.

(** *** [_perform_long_operations] *)

Section filtering.
Context (re_fullmatch : matcher).

(** [long_operations]: a dict from the name of an operation to its
    argument, [None] for [exclude_with_spaces]. *)
Definition operations : Type := gmap string (option string).

(** A method of [str] or [re] called with the stored argument.  A
    stored [None] makes the call raise [TypeError]; the wording of
    the message depends on the method and is not modelled. *)
Definition with_str {A} (arg : option string) (k : string -> result A)
  : result A :=
  match arg with
  | Some s => k s
  | None => Raise (TypeError "expected str, got NoneType")
  end.

(** The body of [for word in words]. *)
Definition long_operations_body (long_operations : operations)
    (word : string) (remove_words : gset string) : result (gset string) :=
  remove_words ←
    match long_operations !! "regex" with
    | Some arg =>
        with_str arg (fun pattern =>
          match re_fullmatch pattern word with
          | None => Raise (ReError pattern)
          | Some false => Ok ({[word]} ∪ remove_words)
          | Some true => Ok remove_words
          end)
    | None => Ok remove_words
    end;
  remove_words ←
    match long_operations !! "exclude_with_spaces" with
    | Some _ =>
        Ok (if has_space word then {[word]} ∪ remove_words
            else remove_words)
    | None => Ok remove_words
    end;
  remove_words ←
    match long_operations !! "starts_with" with
    | Some arg =>
        with_str arg (fun prefix =>
          Ok (if negb (startswith word prefix) then {[word]} ∪ remove_words
              else remove_words))
    | None => Ok remove_words
    end;
  match long_operations !! "ends_with" with
  | Some arg =>
      with_str arg (fun suffix =>
        Ok (if negb (endswith word suffix) then {[word]} ∪ remove_words
            else remove_words))
  | None => Ok remove_words
  end.

Definition _perform_long_operations (words : gset string)
    (long_operations : operations) : result (gset string) :=
  for_each (elements words) (long_operations_body long_operations) ∅.

(** *** [filter] *)

(** The categories to go through: [include_categories], else
    [include_parts_of_speech], else every category. *)
Definition resolve_categories (self : t)
    (include_categories include_parts_of_speech : option (list string))
  : list string :=
  if some_items include_categories then
    default [] include_categories
  else if some_items include_parts_of_speech then
    default [] include_parts_of_speech
  else (map_to_list (_categories self)).*1.

(** The body of [for category in include_categories]. *)
Definition add_category (self : t) (word_min_length word_max_length : option Z)
    (category : string) (words : gset string) : result (gset string) :=
  match _categories self !! category with
  | None => Raise (ValueError ("'" +:+ category +:+ "' is an invalid category"))
  | Some words_in_category =>
      words_to_add ←
        _get_words_of_length words_in_category
          word_min_length word_max_length;
      Ok (words ∪ list_to_set words_to_add)
  end.

(** The block under [if self._tries is not None]; it also rebinds
    [ends_with]. *)
Definition narrow_by_tries (self : t) (starts_with ends_with : string)
    (words : gset string) : gset string * string :=
  match _tries self with
  | Some (t0, t1) =>
      let words :=
        if nonempty starts_with then
          words ∩ Trie.get_words_that_start_with t0 starts_with
        else words in
      if nonempty ends_with then
        let ends_with := reversed ends_with in
        (words ∩ set_map reversed
                   (Trie.get_words_that_start_with t1 ends_with),
         ends_with)
      else (words, ends_with)
  | None => (words, ends_with)
  end.

(** The dict [long_operations] as the four [if]s fill it. *)
Definition collect_operations (self : t) (starts_with ends_with : string)
    (regex : option string) (exclude_with_spaces : bool) : operations :=
  let long_operations : operations := ∅ in
  let long_operations :=
    match regex with
    | Some r => <["regex" := Some r]> long_operations
    | None => long_operations
    end in
  let long_operations :=
    if exclude_with_spaces then
      <["exclude_with_spaces" := None]> long_operations
    else long_operations in
  match _tries self with
  | None =>
      let long_operations :=
        if nonempty starts_with then
          <["starts_with" := Some starts_with]> long_operations
        else long_operations in
      if nonempty ends_with then
        <["ends_with" := Some ends_with]> long_operations
      else long_operations
  | Some _ => long_operations
  end.

Definition filter (self : t) (starts_with ends_with : string)
    (include_categories include_parts_of_speech : option (list string))
    (word_min_length word_max_length : pyarg)
    (regex : option string) (exclude_with_spaces : bool)
  : result (list string) :=
  '(word_min_length, word_max_length) ←
    _validate_lengths word_min_length word_max_length;
  let include_categories :=
    resolve_categories self include_categories include_parts_of_speech in
  words ← for_each include_categories
             (add_category self word_min_length word_max_length) ∅;
  let '(words, ends_with) :=
    narrow_by_tries self starts_with ends_with words in
  let long_operations :=
    collect_operations self starts_with ends_with regex
      exclude_with_spaces in
  words ← (if decide (long_operations = ∅) then Ok words
           else
             remove_words ← _perform_long_operations words long_operations;
             Ok (words ∖ remove_words));
  Ok (elements words).

(** *** [random_words] *)

(** The [for _ in range(amount)] loop, on the variables [choose_from],
    [words] and the state of [random]. *)
Fixpoint draw (n : nat) (g : rng) (choose_from words : list string)
  : result (list string * rng) :=
  match n with
  | O => Ok (words, g)
  | S n' =>
      '(new_word, g) ← choice g choose_from;
      choose_from ← py_remove new_word choose_from;
      draw n' g choose_from (words ++ [new_word])
  end.

Definition random_words (self : t) (g : rng) (amount : Z)
    (starts_with ends_with : string)
    (include_categories include_parts_of_speech : option (list string))
    (word_min_length word_max_length : pyarg)
    (regex : option string)
    (return_less_if_necessary exclude_with_spaces : bool)
  : result (list string * rng) :=
  choose_from ←
    filter self starts_with ends_with include_categories
      include_parts_of_speech word_min_length word_max_length regex
      exclude_with_spaces;
  if negb return_less_if_necessary
     && (Z.of_nat (length choose_from) <? amount) then
    Raise (NoWordsToChoseFrom
             ("There aren't enough words to choose from. Cannot generate "
              +:+ pretty amount +:+ " word(s)"))
  else if return_less_if_necessary then
    Ok (shuffle g choose_from)
  else
    draw (Z.to_nat amount) g choose_from [].

(** *** [word] *)

(** [self.random_words(amount=1, ...)[0]] *)
Definition word (self : t) (g : rng) (starts_with ends_with : string)
    (include_categories include_parts_of_speech : option (list string))
    (word_min_length word_max_length : pyarg)
    (regex : option string) (exclude_with_spaces : bool)
  : result (string * rng) :=
  '(words, g) ←
    random_words self g 1 starts_with ends_with include_categories
      include_parts_of_speech word_min_length word_max_length regex
      false exclude_with_spaces;
  new_word ← py_index words 0;
  Ok (new_word, g).
End filtering.

End RandomWord.

(** ** Notions the statements use *)

(** *** Sorted categories and length bounds *)

(** A category list after [word_list.sort(key=len)]. *)
Definition sorted_by_len (l : list string) : Prop :=
  StronglySorted (fun a b => len a <= len b) l.

(** A word of length [n] lies within the optional bounds. *)
Definition within (min_length max_length : option Z) (n : Z) : Prop :=
  from_option (fun lo => lo <= n) True min_length
  /\ from_option (fun hi => n <= hi) True max_length.

#[global] Instance within_dec lo hi n : Decision (within lo hi n).
Proof. unfold within. destruct lo, hi; simpl; apply _. Defined.

(** The number of words shorter than [t]: in a sorted list, the index of
    the first word of length at least [t]. *)
Definition shorter (t : Z) (l : list string) : nat :=
  length (filter (fun w => len w < t) l).

(** *** The stages of [filter] and its errors *)

(** What [filter] does once the bounds are validated and the categories
    chosen: lines 214 to 271. *)
Definition filter_words (re_fullmatch : matcher) (self : RandomWord.t)
    (starts_with ends_with : string) (include_categories : list string)
    (word_min_length word_max_length : option Z)
    (regex : option string) (exclude_with_spaces : bool)
  : result (list string) :=
  words ← for_each include_categories
             (RandomWord.add_category self word_min_length word_max_length) ∅;
  let '(words, ends_with) :=
    RandomWord.narrow_by_tries self starts_with ends_with words in
  let long_operations :=
    RandomWord.collect_operations self starts_with ends_with regex
      exclude_with_spaces in
  words ← (if decide (long_operations = ∅) then Ok words
           else
             remove_words ←
               RandomWord._perform_long_operations re_fullmatch words
                 long_operations;
             Ok (words ∖ remove_words));
  Ok (elements words).

(** A bound with the negative values turned into [None], as the end of
    [_validate_lengths] does. *)
Definition drop_negative (a : option Z) : option Z :=
  match a with
  | Some n => if n <? 0 then None else Some n
  | None => None
  end.

(** An [Optional[int]] as an argument. *)
Definition arg (a : option Z) : pyarg :=
  match a with
  | Some n => PyInt n
  | None => PyNone
  end.

(** The condition of the [raise] in [_validate_lengths]. *)
Definition inverted (lo hi : option Z) : Prop :=
  match lo, hi with
  | Some lo, Some hi => lo > hi /\ hi <> 0
  | _, _ => False
  end.

Definition invalid_bounds : exn :=
  ValueError "word_min_length cannot be greater than word_max_length".

Definition invalid_category (category : string) : exn :=
  ValueError ("'" +:+ category +:+ "' is an invalid category").

Definition not_enough_words (amount : Z) : exn :=
  NoWordsToChoseFrom
    ("There aren't enough words to choose from. Cannot generate "
     +:+ pretty amount +:+ " word(s)").

(** *** The candidate set *)

(** The words of one category within the bounds; no word for an unknown
    category. *)
Definition category_words (self : RandomWord.t) (lo hi : option Z)
    (category : string) : gset string :=
  list_to_set
    (filter (fun w => within lo hi (len w))
       (default [] (RandomWord._categories self !! category))).

(** The candidate set after the loop over the categories. *)
Definition selected (self : RandomWord.t) (lo hi : option Z)
    (categories : list string) : gset string :=
  ⋃ (category_words self lo hi <$> categories).

(** Every category of the engine is sorted by length, as
    [_custom_categories] leaves it. *)
Definition sorted_categories (self : RandomWord.t) : Prop :=
  map_Forall (fun _ l => sorted_by_len l) (RandomWord._categories self).

(** *** The long operations *)

(** What the loop of [_perform_long_operations] decides for one word:
    [None] when [re.fullmatch] raises, else whether the word is removed. *)
Definition verdict (re_fullmatch : matcher)
    (long_operations : RandomWord.operations) (word : string) : option bool :=
  let by_regex :=
    match long_operations !! "regex" with
    | Some (Some pattern) => negb <$> re_fullmatch pattern word
    | _ => Some false
    end in
  let by_space :=
    match long_operations !! "exclude_with_spaces" with
    | Some _ => has_space word
    | None => false
    end in
  let by_prefix :=
    match long_operations !! "starts_with" with
    | Some (Some prefix) => negb (startswith word prefix)
    | _ => false
    end in
  let by_suffix :=
    match long_operations !! "ends_with" with
    | Some (Some suffix) => negb (endswith word suffix)
    | _ => false
    end in
  (fun r => r || by_space || by_prefix || by_suffix) <$> by_regex.

(** The stored arguments are strings wherever a string is needed: true of
    every dict [collect_operations] builds. *)
Definition well_typed (long_operations : RandomWord.operations) : Prop :=
  long_operations !! "regex" <> Some None
  /\ long_operations !! "starts_with" <> Some None
  /\ long_operations !! "ends_with" <> Some None.

(** The pattern stored in the dict, for the error. *)
Definition pattern_of (long_operations : RandomWord.operations) : string :=
  match long_operations !! "regex" with
  | Some (Some pattern) => pattern
  | _ => ""
  end.

(** *** Engines and draws of the examples *)

Definition no_defaults : Defaults -> list string := fun _ => [].

Definition example_kwargs : list (string * category_source) :=
  [("noun", Words ["apple"; "ant"; "orange"]);
   ("adjective", Words ["angry"; "red"])].

(** A source of draws for the examples. *)
Definition example_rng : rng := fun i => (7 * i + 3)%nat.

(** *** What a call asks of a word *)

(** The outcome of the [regex] test on a word: [None] when [re.fullmatch]
    raises; no pattern accepts every word. *)
Definition matched (re_fullmatch : matcher) (regex : option string)
    (word : string) : option bool :=
  match regex with
  | Some pattern => re_fullmatch pattern word
  | None => Some true
  end.

(** The tests of [exclude_with_spaces], [starts_with] and [ends_with]. *)
Definition spaces_ok (exclude_with_spaces : bool) (word : string) : bool :=
  negb (exclude_with_spaces && has_space word).

Definition affixes_ok (starts_with ends_with word : string) : bool :=
  startswith word starts_with && endswith word ends_with.

(** The words of a set that pass every test, given that the pattern is
    accepted on all of them. *)
Definition passing (re_fullmatch : matcher) (starts_with ends_with : string)
    (regex : option string) (exclude_with_spaces : bool)
    (words : gset string) : gset string :=
  filter (fun w => matched re_fullmatch regex w = Some true
                   /\ spaces_ok exclude_with_spaces w = true
                   /\ affixes_ok starts_with ends_with w = true) words.

(** *** The words a trie holds *)

(** The walk along [cs] ends on a node marked as the end of a word. *)
Definition trie_holds (n : Trie.TrieNode) (cs : list ascii) : Prop :=
  exists n', Trie.walk cs n = Some n' /\ Trie.is_end n' = true.

(** No node has two children under one character: true of the empty trie
    and kept by [insert]. *)
Fixpoint trie_wf (n : Trie.TrieNode) : Prop :=
  let 'Trie.Node _ ch := n in
  NoDup ch.*1
  /\ (fix go (l : list (ascii * Trie.TrieNode)) : Prop :=
        match l with
        | [] => True
        | p :: l' => trie_wf (snd p) /\ go l'
        end) ch.

(** Induction on a trie, the children of a node first. *)
Fixpoint TrieNode_induction (P : Trie.TrieNode -> Prop)
    (step : forall e ch, Forall (fun p => P (snd p)) ch -> P (Trie.Node e ch))
    (n : Trie.TrieNode) {struct n} : P n :=
  let 'Trie.Node e ch := n in
  step e ch
    ((fix go (l : list (ascii * Trie.TrieNode))
        : Forall (fun p => P (snd p)) l :=
        match l with
        | [] => @List.Forall_nil _ _
        | p :: l' =>
            @List.Forall_cons _ _ p l'
              (TrieNode_induction P step (snd p)) (go l')
        end) ch).

(** Every word of every category, in the order the constructor inserts
    them into the tries. *)
Definition all_words (categories : gmap string (list string)) : list string :=
  mjoin (map_to_list categories).*2.

(** *** The constructor's arguments *)

(** The list a keyword argument stands for: itself, or the bundled list
    of a member of [Defaults], as the [if isinstance(words, Defaults)] of
    [_custom_categories] picks it. *)
Definition source_words (_default_categories : Defaults -> list string)
    (words : category_source) : list string :=
  match words with
  | Default d => _default_categories d
  | Words l => l
  end.
(** ** Length slices of a category sorted by word length *)

Section bisection.
Context (t : Z).
Implicit Types l : list string.

Lemma shorter_le_length l : (shorter t l <= length l)%nat.
Proof. apply length_filter. Qed.

Lemma filter_Forall_id (P : string -> Prop) `{!forall w, Decision (P w)} l :
  Forall P l -> filter P l = l.
Proof.
  induction 1 as [|w l Hw _ IH]; [done|].
  by rewrite filter_cons_True, IH.
Qed.

Lemma filter_Forall_nil (P : string -> Prop) `{!forall w, Decision (P w)} l :
  Forall (fun w => ¬ P w) l -> filter P l = [].
Proof.
  induction 1 as [|w l Hw _ IH]; [done|].
  by rewrite filter_cons_False.
Qed.

(** In a sorted list the words shorter than [t] are a prefix, the others
    the matching suffix. *)
Lemma sorted_take_shorter l :
  sorted_by_len l -> take (shorter t l) l = filter (fun w => len w < t) l.
Proof.
  unfold shorter. induction 1 as [|w l _ IH Hall]; [done|].
  destruct (decide (len w < t)) as [Hw|Hw].
  - rewrite filter_cons_True by done. simpl. by rewrite IH.
  - rewrite filter_cons_False by done.
    rewrite filter_Forall_nil; [done|].
    eapply Forall_impl; [exact Hall|]. simpl. lia.
Qed.

Lemma sorted_drop_shorter l :
  sorted_by_len l -> drop (shorter t l) l = filter (fun w => ¬ len w < t) l.
Proof.
  unfold shorter. induction 1 as [|w l _ IH Hall]; [done|].
  destruct (decide (len w < t)) as [Hw|Hw].
  - rewrite filter_cons_True by done.
    rewrite filter_cons_False by tauto. simpl. by rewrite IH.
  - rewrite filter_cons_False by done.
    rewrite filter_Forall_nil by (eapply Forall_impl; [exact Hall|]; simpl; lia).
    simpl. rewrite filter_cons_True by done. f_equal.
    symmetry. apply filter_Forall_id.
    eapply Forall_impl; [exact Hall|]. simpl. lia.
Qed.

(** The word at index [i] is shorter than [t] exactly when [i] is below
    [shorter t l]. *)
Lemma sorted_lookup_shorter l (i : nat) w :
  sorted_by_len l -> l !! i = Some w ->
  len w < t <-> (i < shorter t l)%nat.
Proof.
  intros Hs Hi. split.
  - intros Hw. destruct (decide (i < shorter t l)%nat) as [|Hge]; [done|].
    assert (w ∈ drop (shorter t l) l) as Hin.
    { apply list_elem_of_lookup. exists (i - shorter t l)%nat.
      rewrite lookup_drop. rewrite <- Hi. f_equal. lia. }
    rewrite sorted_drop_shorter in Hin by done.
    apply list_elem_of_filter in Hin. tauto.
  - intros Hlt.
    assert (w ∈ take (shorter t l) l) as Hin.
    { apply list_elem_of_lookup. exists i. by rewrite lookup_take_lt. }
    rewrite sorted_take_shorter in Hin by done.
    apply list_elem_of_filter in Hin. tauto.
Qed.

Lemma py_index_lookup {A} (l : list A) (i : Z) :
  0 <= i < Z.of_nat (length l) ->
  exists x, l !! Z.to_nat i = Some x /\ py_index l i = Ok x.
Proof.
  intros Hi. unfold py_index.
  destruct (l !! Z.to_nat i) as [x|] eqn:Hx.
  - exists x. split; [done|].
    replace (i <? 0) with false by lia.
    replace ((0 <=? i) && (i <? Z.of_nat (length l))) with true by lia.
    by rewrite Hx.
  - apply lookup_ge_None in Hx. lia.
Qed.

(** The loop invariant: the answer lies in [left, right + 1]. *)
Lemma bisect_loop_shorter l (left_ right_ : Z) :
  sorted_by_len l ->
  0 <= left_ -> right_ < Z.of_nat (length l) ->
  left_ <= Z.of_nat (shorter t l) <= right_ + 1 ->
  RandomWord.bisect_loop l t left_ right_ = Ok (Z.of_nat (shorter t l)).
Proof.
  intros Hs. funelim (RandomWord.bisect_loop l t left_ right_); intros Hl Hr Hinv.
  all: try (f_equal; lia).
  all: pose proof (RandomWord.middle_of_bounds left_ right_ Hle) as Hm.
  all: destruct (py_index_lookup words (RandomWord.middle_of left_ right_)) as (x & Hx & Hpy);
    [lia|];
    match goal with Hrun : py_index _ _ = _ |- _ =>
      rewrite Hpy in Hrun; try discriminate Hrun; injection Hrun as <- end.
  all: pose proof (sorted_lookup_shorter _ _ _ Hs Hx) as Hiff.
  all: match goal with IH : _ -> _ -> _ -> _ -> RandomWord.bisect_loop _ _ _ _ = _ |- _ =>
         apply IH; [done|lia..] end.
Qed.

Lemma bisect_by_length_shorter l :
  sorted_by_len l -> RandomWord._bisect_by_length l t = Ok (Z.of_nat (shorter t l)).
Proof.
  intros Hs. unfold RandomWord._bisect_by_length.
  pose proof (shorter_le_length l).
  apply bisect_loop_shorter; [done|lia..].
Qed.
End bisection.

Section length_slice.
Implicit Types l : list string.

Lemma filter_ext_Forall (P Q : string -> Prop)
    `{!forall w, Decision (P w), !forall w, Decision (Q w)} l :
  Forall (fun w => P w <-> Q w) l -> filter P l = filter Q l.
Proof.
  induction 1 as [|w l Hw _ IH]; [done|].
  rewrite !filter_cons, IH. apply decide_ext, Hw.
Qed.

(** The window between the two bisection points holds the words whose
    length is at least [lo] and below [t]. *)
Lemma sorted_window lo t l :
  sorted_by_len l ->
  take (shorter t l - shorter lo l) (drop (shorter lo l) l)
  = filter (fun w => lo <= len w /\ len w < t) l.
Proof.
  induction 1 as [|w l Hs IH Hall]; [done|].
  assert (sorted_by_len (w :: l)) as Hsw by by constructor.
  destruct (decide (len w < lo)) as [Hlo|Hlo].
  - rewrite filter_cons_False by lia.
    destruct (decide (len w < t)) as [Ht|Ht].
    + unfold shorter in *. rewrite !filter_cons_True by done. simpl. apply IH.
    + unfold shorter. rewrite (filter_cons_False (fun w => len w < t)) by done.
      rewrite !(filter_Forall_nil (fun w => len w < t)), take_0.
      * symmetry. apply filter_Forall_nil.
        eapply Forall_impl; [exact Hall|]. simpl. lia.
      * eapply Forall_impl; [exact Hall|]. simpl. lia.
  - replace (shorter lo (w :: l)) with 0%nat.
    + rewrite Nat.sub_0_r, drop_0, sorted_take_shorter by done.
      apply filter_ext_Forall. constructor; [lia|].
      eapply Forall_impl; [exact Hall|]. simpl. lia.
    + unfold shorter. rewrite filter_Forall_nil; [done|].
      constructor; [done|].
      eapply Forall_impl; [exact Hall|]. simpl. lia.
Qed.

Lemma slice_bound_index (n : nat) (i : nat) :
  (i <= n)%nat -> slice_bound (Z.of_nat n) (Z.of_nat i) = Z.of_nat i.
Proof.
  intros Hi. unfold slice_bound.
  replace (Z.of_nat i <? 0) with false by lia. lia.
Qed.

Lemma py_slice_window {A} (l : list A) (a b : nat) :
  (a <= length l)%nat -> (b <= length l)%nat ->
  py_slice l (Z.of_nat a) (Some (Z.of_nat b)) = take (b - a) (drop a l).
Proof.
  intros Ha Hb. unfold py_slice.
  rewrite !slice_bound_index by done.
  rewrite Nat2Z.id. f_equal. lia.
Qed.

Lemma py_slice_from {A} (l : list A) (a : nat) :
  (a <= length l)%nat -> py_slice l (Z.of_nat a) None = drop a l.
Proof.
  intros Ha. unfold py_slice.
  rewrite !slice_bound_index by done.
  rewrite Nat2Z.id. apply take_ge. rewrite length_drop. lia.
Qed.
End length_slice.

(** The slice between the two bisections of a sorted list, shared by the
    results on [_get_words_of_length] and on [filter]. *)
Lemma get_words_of_length_sorted (word_list : list string)
    (min_length max_length : option Z) :
  sorted_by_len word_list ->
  RandomWord._get_words_of_length word_list min_length max_length
  = Ok (filter (fun w => within min_length max_length (len w)) word_list).
Proof.
  intros Hs. unfold RandomWord._get_words_of_length.
  destruct min_length as [lo|], max_length as [hi|]; simpl.
  - rewrite !bisect_by_length_shorter by done. simpl.
    rewrite py_slice_window by apply shorter_le_length.
    rewrite sorted_window by done. f_equal.
    apply list_filter_iff. intros w. unfold within. simpl. lia.
  - rewrite bisect_by_length_shorter by done. simpl.
    rewrite py_slice_from by apply shorter_le_length.
    rewrite sorted_drop_shorter by done. f_equal.
    apply list_filter_iff. intros w. unfold within. simpl. intuition lia.
  - rewrite bisect_by_length_shorter by done. simpl.
    change 0 with (Z.of_nat 0).
    rewrite py_slice_window by (pose proof (shorter_le_length (hi + 1) word_list); lia).
    rewrite Nat.sub_0_r, drop_0, sorted_take_shorter by done. f_equal.
    apply list_filter_iff. intros w. unfold within. simpl. intuition lia.
  - change 0 with (Z.of_nat 0). rewrite py_slice_from by lia.
    rewrite drop_0. f_equal. symmetry. apply filter_Forall_id.
    apply Forall_forall. intros w _. by unfold within.
Qed.

(** C3: on a list sorted ascending by word length, the slice delimited by
    the two binary searches of [_get_words_of_length] is exactly the
    sub-list of the words whose length lies in [min_length, max_length], an
    absent bound being unbounded on its side.  The call always returns: the
    searches never index out of range.  Empty lists, a [min_length] above
    every word length and [min_length = max_length] are instances. *)
Theorem get_words_of_length_exact (word_list : list string)
    (min_length max_length : option Z) :
  sorted_by_len word_list ->
  RandomWord._get_words_of_length word_list min_length max_length
  = Ok (filter (fun w => within min_length max_length (len w)) word_list).
Proof. intros Hs. by apply get_words_of_length_sorted. Qed.

(** The theorem at the category of the specification: lengths 1,2,2,3,5
    and the bounds (2, 3). *)
Lemma get_words_of_length_exact_witness :
  sorted_by_len ["a"; "bb"; "cc"; "ddd"; "eeeee"]
  /\ RandomWord._get_words_of_length ["a"; "bb"; "cc"; "ddd"; "eeeee"] (Some 2) (Some 3)
     = Ok ["bb"; "cc"; "ddd"].
Proof.
  assert (sorted_by_len ["a"; "bb"; "cc"; "ddd"; "eeeee"]) as Hs.
  { unfold sorted_by_len. repeat constructor; vm_compute; discriminate. }
  split; [exact Hs|].
  rewrite (get_words_of_length_exact _ (Some 2) (Some 3) Hs). reflexivity.
Defined.

(** ** The examples of the specification, run on the model *)

Example end_to_end_prefix :
  list_to_set (C := gset string) <$>
    RandomWord.filter Fragment.fragment_fullmatch
      (RandomWord.__init__ no_defaults false example_kwargs)
      "a" "" (Some ["noun"]) None (PyInt 3) PyNone None false
  = Ok {["apple"; "ant"]}.
Proof. vm_compute. reflexivity. Qed.

Example end_to_end_prefix_indexed :
  list_to_set (C := gset string) <$>
    RandomWord.filter Fragment.fragment_fullmatch
      (RandomWord.__init__ no_defaults true example_kwargs)
      "a" "" (Some ["noun"]) None (PyInt 3) PyNone None false
  = Ok {["apple"; "ant"]}.
Proof. vm_compute. reflexivity. Qed.

Example end_to_end_pattern :
  list_to_set (C := gset string) <$>
    RandomWord.filter Fragment.fragment_fullmatch
      (RandomWord.__init__ no_defaults false example_kwargs)
      "" "" (Some ["noun"; "adjective"]) None PyNone PyNone (Some "a.*") false
  = Ok {["apple"; "ant"; "angry"]}.
Proof. vm_compute. reflexivity. Qed.

Example end_to_end_unknown_category :
  RandomWord.filter Fragment.fragment_fullmatch
    (RandomWord.__init__ no_defaults false example_kwargs)
    "" "" (Some ["verb"]) None PyNone PyNone None false
  = Raise (ValueError "'verb' is an invalid category").
Proof. vm_compute. reflexivity. Qed.

Example trie_prefix_a :
  Trie.get_words_that_start_with
    (foldl Trie.insert Trie.empty ["apple"; "ant"; "orange"; "angry"]) "an"
  = {["ant"; "angry"]}.
Proof. vm_compute. reflexivity. Qed.

Example fragment_a_dot_star :
  Fragment.fragment_fullmatch "a.*" <$> ["apple"; "ant"; "red"; "a"; "banana"]
  = [Some true; Some true; Some false; Some true; Some false].
Proof. vm_compute. reflexivity. Qed.

Example fragment_groups :
  (fun p => Fragment.fragment_fullmatch p "abab") <$>
    ["(ab)*"; "(ab|c)+"; "ab"; "a?bab"; "abab|x"; "("; ")"; "*a"; "a**"; "(a"]
  = [Some true; Some true; Some false; Some true; Some true;
     None; None; None; None; None].
Proof. vm_compute. reflexivity. Qed.

(** ** The stages of [filter] *)

Section stages.
Context (re_fullmatch : matcher).
Implicit Types self : RandomWord.t.

Lemma filter_stages self sw ew ic ipos lo hi rx ews :
  RandomWord.filter re_fullmatch self sw ew ic ipos lo hi rx ews
  = bounds ← RandomWord._validate_lengths lo hi;
    filter_words re_fullmatch self sw ew
      (RandomWord.resolve_categories self ic ipos)
      bounds.1 bounds.2 rx ews.
Proof.
  unfold RandomWord.filter, filter_words.
  destruct (RandomWord._validate_lengths lo hi) as [[mn mx]|e]; reflexivity.
Qed.

Lemma validate_lengths_inverted (lo hi : Z) :
  lo > hi -> hi <> 0 ->
  RandomWord._validate_lengths (PyInt lo) (PyInt hi) = Raise invalid_bounds.
Proof.
  intros Hlt Hne. unfold RandomWord._validate_lengths. simpl.
  replace (lo >? hi) with true by lia.
  replace (hi =? 0) with false by lia. reflexivity.
Qed.

Lemma validate_lengths_ok (lo hi : option Z) :
  ¬ inverted lo hi ->
  RandomWord._validate_lengths (arg lo) (arg hi)
  = Ok (drop_negative lo, drop_negative hi).
Proof.
  intros Hinv. unfold RandomWord._validate_lengths.
  destruct lo as [lo|], hi as [hi|]; simpl in *.
  - destruct (lo >? hi) eqn:Hgt, (hi =? 0) eqn:Hz; simpl;
      try (exfalso; apply Hinv; lia);
      by destruct (lo <? 0), (hi <? 0).
  - by destruct (lo <? 0).
  - by destruct (hi <? 0).
  - done.
Qed.

Lemma drop_negative_not_inverted (lo hi : option Z) :
  ¬ inverted lo hi -> ¬ inverted (drop_negative lo) (drop_negative hi).
Proof.
  destruct lo as [lo|], hi as [hi|]; simpl; try tauto;
    repeat case_match; simpl; tauto.
Qed.

Lemma drop_negative_idemp (a : option Z) :
  drop_negative (drop_negative a) = drop_negative a.
Proof.
  destruct a as [n|]; simpl; [|done].
  destruct (n <? 0) eqn:Hn; simpl; [done|]. by rewrite Hn.
Qed.
End stages.

(** ** Length bounds *)

(** C7: when both bounds are given, [word_min_length > word_max_length] and
    [word_max_length] is not 0, [filter] raises the [ValueError] of
    [_validate_lengths]; the bounds are not adjusted and nothing else of
    the call runs. *)
Theorem filter_rejects_inverted_bounds (re_fullmatch : matcher)
    (self : RandomWord.t) (starts_with ends_with : string)
    (include_categories include_parts_of_speech : option (list string))
    (word_min_length word_max_length : Z)
    (regex : option string) (exclude_with_spaces : bool) :
  word_min_length > word_max_length -> word_max_length <> 0 ->
  RandomWord.filter re_fullmatch self starts_with ends_with
    include_categories include_parts_of_speech
    (PyInt word_min_length) (PyInt word_max_length) regex exclude_with_spaces
  = Raise invalid_bounds.
Proof.
  intros Hgt Hne. rewrite filter_stages.
  by rewrite validate_lengths_inverted.
Qed.

Lemma filter_rejects_inverted_bounds_witness :
  5 > 2 /\ 2 <> 0
  /\ RandomWord.filter Fragment.fragment_fullmatch
       (RandomWord.__init__ no_defaults false example_kwargs)
       "" "" None None (PyInt 5) (PyInt 2) None false
     = Raise invalid_bounds.
Proof.
  split; [lia|]. split; [lia|].
  apply filter_rejects_inverted_bounds; lia.
Defined.

(** C4, as stated, fails: a negative [word_max_length] below a given
    [word_min_length] is rejected by the comparison, which runs before the
    negative bounds are dropped. *)
Lemma negative_max_rejected :
  RandomWord.filter Fragment.fragment_fullmatch
    (RandomWord.__init__ no_defaults false example_kwargs)
    "" "" None None (PyInt 3) (PyInt (-1)) None false
  = Raise invalid_bounds
  /\ list_to_set (C := gset string) <$>
       RandomWord.filter Fragment.fragment_fullmatch
         (RandomWord.__init__ no_defaults false example_kwargs)
         "" "" None None (PyInt 3) PyNone None false
     = Ok {["ant"; "red"; "apple"; "angry"; "orange"]}.
Proof. split; vm_compute; reflexivity. Qed.

(** C4, amended: when a supplied bound is negative and the comparison of
    [_validate_lengths] does not fire (the two bounds are not both given
    with [word_min_length > word_max_length <> 0]), no error comes from
    the bounds, each negative bound becomes [None], and the call is the
    call without the negative bounds. *)
Theorem filter_drops_negative_bounds (re_fullmatch : matcher)
    (self : RandomWord.t) (starts_with ends_with : string)
    (include_categories include_parts_of_speech : option (list string))
    (word_min_length word_max_length : option Z)
    (regex : option string) (exclude_with_spaces : bool) :
  drop_negative word_min_length <> word_min_length
  \/ drop_negative word_max_length <> word_max_length ->
  ¬ inverted word_min_length word_max_length ->
  RandomWord._validate_lengths (arg word_min_length) (arg word_max_length)
  = Ok (drop_negative word_min_length, drop_negative word_max_length)
  /\ RandomWord.filter re_fullmatch self starts_with ends_with
       include_categories include_parts_of_speech
       (arg word_min_length) (arg word_max_length) regex exclude_with_spaces
     = RandomWord.filter re_fullmatch self starts_with ends_with
         include_categories include_parts_of_speech
         (arg (drop_negative word_min_length))
         (arg (drop_negative word_max_length)) regex exclude_with_spaces.
Proof.
  intros _ Hinv. split; [by apply validate_lengths_ok|].
  rewrite !filter_stages, !validate_lengths_ok
    by auto using drop_negative_not_inverted.
  by rewrite !drop_negative_idemp.
Qed.

Lemma filter_drops_negative_bounds_witness :
  (drop_negative (Some (-4)) <> Some (-4)
   \/ drop_negative (Some 5) <> Some 5)
  /\ ¬ inverted (Some (-4)) (Some 5)
  /\ RandomWord.filter Fragment.fragment_fullmatch
       (RandomWord.__init__ no_defaults false example_kwargs)
       "" "" None None (PyInt (-4)) (PyInt 5) None false
     = RandomWord.filter Fragment.fragment_fullmatch
         (RandomWord.__init__ no_defaults false example_kwargs)
         "" "" None None PyNone (PyInt 5) None false.
Proof.
  assert (drop_negative (Some (-4)) <> Some (-4)
          \/ drop_negative (Some 5) <> Some 5) as Hneg
    by (left; discriminate).
  assert (¬ inverted (Some (-4)) (Some 5)) as Hinv by (simpl; lia).
  split; [exact Hneg|]. split; [exact Hinv|].
  exact (proj2 (filter_drops_negative_bounds Fragment.fragment_fullmatch
                  (RandomWord.__init__ no_defaults false example_kwargs)
                  "" "" None None (Some (-4)) (Some 5) None false Hneg Hinv)).
Defined.

(** ** Categories *)

Section categories.
Context (re_fullmatch : matcher).
Implicit Types self : RandomWord.t.

(** The searches return on every list, sorted or not: the index they
    read stays in range. *)
Lemma bisect_loop_returns (l : list string) (t left_ right_ : Z) :
  0 <= left_ -> right_ < Z.of_nat (length l) -> left_ <= right_ + 1 ->
  exists k, RandomWord.bisect_loop l t left_ right_ = Ok k
            /\ left_ <= k <= right_ + 1.
Proof.
  funelim (RandomWord.bisect_loop l t left_ right_); intros Hl Hr Hlr.
  - exists left_. split; [done|lia].
  - pose proof (RandomWord.middle_of_bounds left_ right_ Hle) as Hm.
    destruct (py_index_lookup words (RandomWord.middle_of left_ right_))
      as (x & _ & Hpy); [lia|]. congruence.
  - pose proof (RandomWord.middle_of_bounds left_ right_ Hle) as Hm.
    destruct H as (k & -> & Hk); [lia..|]. exists k. split; [done|lia].
  - pose proof (RandomWord.middle_of_bounds left_ right_ Hle) as Hm.
    destruct H as (k & -> & Hk); [lia..|]. exists k. split; [done|lia].
Qed.

Lemma bisect_by_length_returns (l : list string) (t : Z) :
  exists k, RandomWord._bisect_by_length l t = Ok k.
Proof.
  destruct (bisect_loop_returns l t 0 (Z.of_nat (length l) - 1))
    as (k & Hk & _); [lia..|]. by exists k.
Qed.

Lemma get_words_of_length_returns (l : list string) (lo hi : option Z) :
  exists ws, RandomWord._get_words_of_length l lo hi = Ok ws.
Proof.
  unfold RandomWord._get_words_of_length.
  destruct lo as [lo|], hi as [hi|]; simpl;
    repeat match goal with
      | |- context [RandomWord._bisect_by_length l ?t] =>
          destruct (bisect_by_length_returns l t) as [? ->]; simpl
      end; eauto.
Qed.

Lemma add_category_known self lo hi (k : string) (l : list string)
    (words : gset string) :
  RandomWord._categories self !! k = Some l ->
  RandomWord.add_category self lo hi k words
  = ws ← RandomWord._get_words_of_length l lo hi;
    Ok (words ∪ list_to_set ws).
Proof. intros Hl. unfold RandomWord.add_category. by rewrite Hl. Qed.

Lemma add_category_unknown self lo hi (c : string) (words : gset string) :
  RandomWord._categories self !! c = None ->
  RandomWord.add_category self lo hi c words = Raise (invalid_category c).
Proof. intros Hc. unfold RandomWord.add_category. by rewrite Hc. Qed.

(** The loop over the categories stops at the first unknown name. *)
Lemma for_each_unknown_category self lo hi (known rest : list string)
    (c : string) (words : gset string) :
  Forall (fun k => is_Some (RandomWord._categories self !! k)) known ->
  RandomWord._categories self !! c = None ->
  for_each (known ++ c :: rest) (RandomWord.add_category self lo hi) words
  = Raise (invalid_category c).
Proof.
  intros Hknown Hc. revert words.
  induction Hknown as [|k known [l Hl] _ IH]; intros words.
  - simpl. by rewrite add_category_unknown.
  - simpl. rewrite (add_category_known _ _ _ _ l) by done.
    destruct (get_words_of_length_returns l lo hi) as [ws ->]. simpl.
    apply IH.
Qed.

(** A list with an unknown name splits at the first one. *)
Lemma first_unknown self (cats : list string) :
  Exists (fun c => RandomWord._categories self !! c = None) cats ->
  exists known c rest,
    cats = (known ++ c :: rest)%list
    /\ Forall (fun k => is_Some (RandomWord._categories self !! k)) known
    /\ RandomWord._categories self !! c = None.
Proof.
  induction 1 as [c cats Hc|c cats _ (known & c' & rest & -> & Hk & Hc')].
  - by exists [], c, cats.
  - destruct (RandomWord._categories self !! c) as [l|] eqn:Hc.
    + exists (c :: known), c', rest. split; [done|]. split; [|done].
      constructor; [by exists l|done].
    + by exists [], c, (known ++ c' :: rest)%list.
Qed.
End categories.

(** C6, as stated, fails: the bounds are validated before the categories
    are looked at, so a call with an unknown category and inverted bounds
    fails with the error of the bounds, which names no category. *)
Lemma unknown_category_after_bounds :
  RandomWord.filter Fragment.fragment_fullmatch
    (RandomWord.__init__ no_defaults false example_kwargs)
    "" "" (Some ["verb"]) None (PyInt 5) (PyInt 2) None false
  = Raise invalid_bounds
  /\ invalid_bounds <> invalid_category "verb".
Proof. split; [vm_compute; reflexivity|discriminate]. Qed.

(** C6, amended: when the bounds pass [_validate_lengths] and the list of
    categories the call goes through ([include_categories] if it has
    items, else [include_parts_of_speech] if it has items) contains a name
    that is not a category of the engine, [filter] raises [ValueError]
    with the message ['<name>' is an invalid category], for the first such
    name of the list. *)
Theorem filter_unknown_category (re_fullmatch : matcher)
    (self : RandomWord.t) (starts_with ends_with : string)
    (include_categories include_parts_of_speech : option (list string))
    (word_min_length word_max_length : pyarg) (bounds : option Z * option Z)
    (regex : option string) (exclude_with_spaces : bool) :
  RandomWord._validate_lengths word_min_length word_max_length = Ok bounds ->
  Exists (fun c => RandomWord._categories self !! c = None)
    (RandomWord.resolve_categories self include_categories
       include_parts_of_speech) ->
  exists known c rest,
    RandomWord.resolve_categories self include_categories
      include_parts_of_speech = (known ++ c :: rest)%list
    /\ Forall (fun k => is_Some (RandomWord._categories self !! k)) known
    /\ RandomWord._categories self !! c = None
    /\ RandomWord.filter re_fullmatch self starts_with ends_with
         include_categories include_parts_of_speech
         word_min_length word_max_length regex exclude_with_spaces
       = Raise (invalid_category c).
Proof.
  intros Hv Hex.
  destruct (first_unknown self _ Hex) as (known & c & rest & Hcats & Hk & Hc).
  exists known, c, rest. repeat split; try done.
  rewrite filter_stages, Hv. simpl. unfold filter_words.
  by rewrite Hcats, (for_each_unknown_category self _ _ known rest c).
Qed.

Lemma filter_unknown_category_witness :
  exists known c rest,
    ["noun"; "verb"; "adverb"] = (known ++ c :: rest)%list
    /\ RandomWord._categories
         (RandomWord.__init__ no_defaults false example_kwargs) !! c = None
    /\ RandomWord.filter Fragment.fragment_fullmatch
         (RandomWord.__init__ no_defaults false example_kwargs)
         "" "" (Some ["noun"; "verb"; "adverb"]) None PyNone PyNone None false
       = Raise (invalid_category c).
Proof.
  destruct (filter_unknown_category Fragment.fragment_fullmatch
              (RandomWord.__init__ no_defaults false example_kwargs)
              "" "" (Some ["noun"; "verb"; "adverb"]) None PyNone PyNone
              (None, None) None false eq_refl)
    as (known & c & rest & Hcats & Hk & Hc & Hf).
  { apply Exists_cons_tl, Exists_cons_hd. vm_compute. reflexivity. }
  exists known, c, rest. split; [exact Hcats|]. split; [exact Hc|exact Hf].
Defined.

(** With no category named, the example engine answers from both of its
    categories. *)
Example empty_include_categories_all :
  list_to_set (C := gset string) <$>
    RandomWord.filter Fragment.fragment_fullmatch
      (RandomWord.__init__ no_defaults false example_kwargs)
      "" "" (Some []) None PyNone PyNone None false
  = Ok {["apple"; "ant"; "orange"; "angry"; "red"]}.
Proof. vm_compute. reflexivity. Qed.

Example empty_include_categories_parts_of_speech :
  list_to_set (C := gset string) <$>
    RandomWord.filter Fragment.fragment_fullmatch
      (RandomWord.__init__ no_defaults false example_kwargs)
      "" "" (Some []) (Some ["adjective"]) PyNone PyNone None false
  = Ok {["angry"; "red"]}.
Proof. vm_compute. reflexivity. Qed.

(** ** Sampling *)

Section sampling.
Context (re_fullmatch : matcher).
Implicit Types (g : rng) (l x choose_from words : list string).

(** [random_words] once [filter] has returned. *)
Lemma random_words_filtered self g amount sw ew ic ipos lo hi rx rl ews pool :
  RandomWord.filter re_fullmatch self sw ew ic ipos lo hi rx ews = Ok pool ->
  RandomWord.random_words re_fullmatch self g amount sw ew ic ipos lo hi rx
    rl ews
  = if negb rl && (Z.of_nat (length pool) <? amount) then
      Raise (not_enough_words amount)
    else if rl then Ok (shuffle g pool)
    else RandomWord.draw (Z.to_nat amount) g pool [].
Proof. intros Hf. unfold RandomWord.random_words. by rewrite Hf. Qed.

Lemma random_words_propagates self g amount sw ew ic ipos lo hi rx rl ews e :
  RandomWord.filter re_fullmatch self sw ew ic ipos lo hi rx ews = Raise e ->
  RandomWord.random_words re_fullmatch self g amount sw ew ic ipos lo hi rx
    rl ews
  = Raise e.
Proof. intros Hf. unfold RandomWord.random_words. by rewrite Hf. Qed.

(** [filter] returns the elements of a set: a list without duplicates. *)
Lemma filter_NoDup self sw ew ic ipos lo hi rx ews pool :
  RandomWord.filter re_fullmatch self sw ew ic ipos lo hi rx ews = Ok pool ->
  NoDup pool.
Proof.
  rewrite filter_stages.
  destruct (RandomWord._validate_lengths lo hi) as [bounds|]; [|done].
  simpl. unfold filter_words.
  destruct (for_each _ _ _) as [words|]; [|done]. simpl.
  destruct (RandomWord.narrow_by_tries _ _ _ _) as [words' ew'].
  destruct (decide _); simpl.
  - intros [= <-]. apply NoDup_elements.
  - destruct (RandomWord._perform_long_operations _ _ _); [|done].
    simpl. intros [= <-]. apply NoDup_elements.
Qed.

(** *** [random.shuffle] permutes *)

Lemma insert_Permutation {A} (m : list A) (k : nat) (y z : A) :
  m !! k = Some y -> <[k:=z]> m ≡ₚ z :: delete k m.
Proof.
  intros Hk. rewrite insert_take_drop by (by eapply lookup_lt_Some).
  rewrite delete_take_drop. by rewrite Permutation_middle.
Qed.

Lemma swap_Permutation {A} (m : list A) (i j : nat) : swap m i j ≡ₚ m.
Proof.
  unfold swap.
  destruct (m !! i) as [xi|] eqn:Hi; [|done].
  destruct (m !! j) as [xj|] eqn:Hj; [|done].
  assert (<[i:=xj]> m !! j = Some xj) as Hj'.
  { destruct (decide (i = j)) as [->|Hne].
    - apply list_lookup_insert_eq. by eapply lookup_lt_Some.
    - by rewrite list_lookup_insert_ne. }
  rewrite (insert_Permutation _ j xj xi Hj').
  transitivity (xi :: delete i m);
    [|symmetry; by apply delete_Permutation].
  f_equiv.
  apply (inj (cons xj)).
  rewrite <- (delete_Permutation _ j xj Hj').
  by eapply insert_Permutation.
Qed.

Lemma shuffle_from_Permutation {A} (i : nat) g (m : list A) :
  (shuffle_from i g m).1 ≡ₚ m.
Proof.
  revert g m. induction i as [|i IH]; intros g m; simpl; [done|].
  rewrite IH. apply swap_Permutation.
Qed.

Lemma shuffle_Permutation {A} g (m : list A) : (shuffle g m).1 ≡ₚ m.
Proof. apply shuffle_from_Permutation. Qed.

(** *** The drawing loop *)

Lemma choice_returns g choose_from :
  choose_from <> [] ->
  exists w, choice g choose_from = Ok (w, (_randbelow g (length choose_from)).2)
            /\ w ∈ choose_from.
Proof.
  intros Hne. destruct choose_from as [|w0 l0]; [done|].
  remember (w0 :: l0) as l eqn:Hl.
  assert (0 < length l)%nat as Hpos by (subst l; simpl; lia).
  destruct (py_index_lookup l (Z.of_nat (g 0%nat `mod` length l)))
    as (w & Hw & Hpy).
  { split; [lia|]. by apply inj_lt, Nat.mod_upper_bound, Nat.neq_0_lt_0. }
  exists w. split; [|eapply list_elem_of_lookup_2; exact Hw].
  assert (choice g l
          = x ← py_index l (Z.of_nat (g 0%nat `mod` length l));
            Ok (x, (_randbelow g (length l)).2)) as ->
    by (subst l; reflexivity).
  by rewrite Hpy.
Qed.

Lemma py_remove_returns w l :
  w ∈ l -> exists l', py_remove w l = Ok l' /\ l ≡ₚ w :: l'.
Proof.
  induction l as [|y l IH]; intros Hin; [by apply elem_of_nil in Hin|].
  simpl. destruct (decide (w = y)) as [->|Hne]; [by exists l|].
  apply elem_of_cons in Hin as [?|Hin]; [done|].
  destruct (IH Hin) as (l' & -> & Hperm). simpl.
  exists (y :: l'). split; [done|]. rewrite Hperm. apply Permutation_swap.
Qed.

Lemma bind_Ok {A B} (a : A) (k : A -> result B) : Ok a ≫= k = k a.
Proof. reflexivity. Qed.

Lemma draw_S (n : nat) g choose_from words :
  RandomWord.draw (S n) g choose_from words
  = '(new_word, g) ← choice g choose_from;
    choose_from ← py_remove new_word choose_from;
    RandomWord.draw n g choose_from (words ++ [new_word]).
Proof. reflexivity. Qed.

(** [n] turns of the loop move [n] words from [choose_from] to the end
    of [words]. *)
Lemma draw_returns (n : nat) g choose_from words :
  (n <= length choose_from)%nat ->
  exists taken rest g',
    RandomWord.draw n g choose_from words = Ok (words ++ taken, g')%list
    /\ length taken = n
    /\ choose_from ≡ₚ (taken ++ rest)%list.
Proof.
  revert g choose_from words.
  induction n as [|n IH]; intros g choose_from words Hn.
  - exists [], choose_from, g. simpl. by rewrite app_nil_r.
  - assert (choose_from <> []) as Hne by (intros ->; simpl in Hn; lia).
    destruct (choice_returns g choose_from Hne) as (w & Hc & Hin).
    destruct (py_remove_returns w choose_from Hin) as (l' & Hr & Hperm).
    rewrite draw_S, Hc, bind_Ok. cbv beta iota. rewrite Hr, bind_Ok.
    destruct (IH (_randbelow g (length choose_from)).2 l' (words ++ [w])%list)
      as (taken & rest & g' & Hd & Hlen & Hp).
    { apply Permutation_length in Hperm. simpl in Hperm. lia. }
    exists (w :: taken), rest, g'. rewrite Hd.
    split; [by rewrite <- app_assoc|]. split; [simpl; lia|].
    rewrite Hperm, Hp. done.
Qed.
End sampling.

(** C5, as stated, fails: the error carries the requested count only.  A
    pool of two words and a pool of three, asked for five, raise the very
    same exception, so the available count cannot be read off it. *)
Lemma not_enough_words_hides_available :
  length <$> RandomWord.filter Fragment.fragment_fullmatch
               (RandomWord.__init__ no_defaults false example_kwargs)
               "" "" (Some ["adjective"]) None PyNone PyNone None false
  = Ok 2%nat
  /\ length <$> RandomWord.filter Fragment.fragment_fullmatch
                  (RandomWord.__init__ no_defaults false example_kwargs)
                  "" "" (Some ["noun"]) None PyNone PyNone None false
     = Ok 3%nat
  /\ RandomWord.random_words Fragment.fragment_fullmatch
       (RandomWord.__init__ no_defaults false example_kwargs) example_rng 5
       "" "" (Some ["adjective"]) None PyNone PyNone None false false
     = Raise (NoWordsToChoseFrom
                "There aren't enough words to choose from. Cannot generate 5 word(s)")
  /\ RandomWord.random_words Fragment.fragment_fullmatch
       (RandomWord.__init__ no_defaults false example_kwargs) example_rng 5
       "" "" (Some ["noun"]) None PyNone PyNone None false false
     = Raise (NoWordsToChoseFrom
                "There aren't enough words to choose from. Cannot generate 5 word(s)").
Proof. repeat split; vm_compute; reflexivity. Qed.

(** C5, amended: when [return_less_if_necessary] is false and the amount
    requested exceeds the size of the filtered pool, [random_words] raises
    [NoWordsToChoseFrom] with a message that gives the requested amount;
    the size of the pool is not part of the error. *)
Theorem random_words_not_enough (re_fullmatch : matcher)
    (self : RandomWord.t) (g : rng) (amount : Z)
    (starts_with ends_with : string)
    (include_categories include_parts_of_speech : option (list string))
    (word_min_length word_max_length : pyarg)
    (regex : option string) (exclude_with_spaces : bool)
    (pool : list string) :
  RandomWord.filter re_fullmatch self starts_with ends_with
    include_categories include_parts_of_speech
    word_min_length word_max_length regex exclude_with_spaces = Ok pool ->
  Z.of_nat (length pool) < amount ->
  RandomWord.random_words re_fullmatch self g amount starts_with ends_with
    include_categories include_parts_of_speech
    word_min_length word_max_length regex false exclude_with_spaces
  = Raise (NoWordsToChoseFrom
             ("There aren't enough words to choose from. Cannot generate "
              +:+ pretty amount +:+ " word(s)")).
Proof.
  intros Hf Hlt. rewrite (random_words_filtered _ _ _ _ _ _ _ _ _ _ _ _ _ _ Hf).
  simpl. by replace (Z.of_nat (length pool) <? amount) with true by lia.
Qed.

Lemma random_words_not_enough_witness :
  RandomWord.random_words Fragment.fragment_fullmatch
    (RandomWord.__init__ no_defaults false example_kwargs) example_rng 5
    "" "" (Some ["adjective"]) None PyNone PyNone None false false
  = Raise (NoWordsToChoseFrom
             "There aren't enough words to choose from. Cannot generate 5 word(s)").
Proof.
  apply (random_words_not_enough Fragment.fragment_fullmatch
           (RandomWord.__init__ no_defaults false example_kwargs) example_rng 5
           "" "" (Some ["adjective"]) None PyNone PyNone None false
           ["angry"; "red"]).
  - vm_compute. reflexivity.
  - simpl. lia.
Defined.

(** C9: with [return_less_if_necessary] set, [random_words] returns the
    whole filtered pool, shuffled, whatever the amount requested: the
    result is a permutation of the pool, also when the pool holds more
    words than [amount]. *)
Theorem random_words_return_less (re_fullmatch : matcher)
    (self : RandomWord.t) (g : rng) (amount : Z)
    (starts_with ends_with : string)
    (include_categories include_parts_of_speech : option (list string))
    (word_min_length word_max_length : pyarg)
    (regex : option string) (exclude_with_spaces : bool)
    (pool : list string) :
  RandomWord.filter re_fullmatch self starts_with ends_with
    include_categories include_parts_of_speech
    word_min_length word_max_length regex exclude_with_spaces = Ok pool ->
  exists words g',
    RandomWord.random_words re_fullmatch self g amount starts_with ends_with
      include_categories include_parts_of_speech
      word_min_length word_max_length regex true exclude_with_spaces
    = Ok (words, g')
    /\ words ≡ₚ pool.
Proof.
  intros Hf. rewrite (random_words_filtered _ _ _ _ _ _ _ _ _ _ _ _ _ _ Hf).
  simpl. exists (shuffle g pool).1, (shuffle g pool).2.
  split; [by destruct (shuffle g pool)|apply shuffle_Permutation].
Qed.

Lemma random_words_return_less_witness :
  exists words g',
    RandomWord.random_words Fragment.fragment_fullmatch
      (RandomWord.__init__ no_defaults false example_kwargs) example_rng 1
      "" "" None None PyNone PyNone None true false
    = Ok (words, g')
    /\ words ≡ₚ ["orange"; "angry"; "ant"; "apple"; "red"].
Proof.
  apply (random_words_return_less Fragment.fragment_fullmatch
           (RandomWord.__init__ no_defaults false example_kwargs)
           example_rng 1 "" "" None None PyNone PyNone None false
           ["orange"; "angry"; "ant"; "apple"; "red"]).
  vm_compute. reflexivity.
Defined.

(** C8: with [return_less_if_necessary] false, a call of [random_words]
    that returns gives pairwise distinct words, each of them in the
    filtered pool; when the amount equals the size of the pool the result
    is a permutation of the whole pool.  The call does return whenever the
    pool holds at least [amount] words. *)
Theorem random_words_distinct (re_fullmatch : matcher)
    (self : RandomWord.t) (g : rng) (amount : Z)
    (starts_with ends_with : string)
    (include_categories include_parts_of_speech : option (list string))
    (word_min_length word_max_length : pyarg)
    (regex : option string) (exclude_with_spaces : bool) :
  (forall pool,
     RandomWord.filter re_fullmatch self starts_with ends_with
       include_categories include_parts_of_speech
       word_min_length word_max_length regex exclude_with_spaces = Ok pool ->
     amount <= Z.of_nat (length pool) ->
     exists words g',
       RandomWord.random_words re_fullmatch self g amount starts_with
         ends_with include_categories include_parts_of_speech
         word_min_length word_max_length regex false exclude_with_spaces
       = Ok (words, g'))
  /\ (forall words g',
        RandomWord.random_words re_fullmatch self g amount starts_with
          ends_with include_categories include_parts_of_speech
          word_min_length word_max_length regex false exclude_with_spaces
        = Ok (words, g') ->
        exists pool,
          RandomWord.filter re_fullmatch self starts_with ends_with
            include_categories include_parts_of_speech
            word_min_length word_max_length regex exclude_with_spaces
          = Ok pool
          /\ NoDup words
          /\ (forall w, w ∈ words -> w ∈ pool)
          /\ length words = Z.to_nat amount
          /\ (amount = Z.of_nat (length pool) -> words ≡ₚ pool)).
Proof.
  split.
  - intros pool Hf Hle.
    rewrite (random_words_filtered _ _ _ _ _ _ _ _ _ _ _ _ _ _ Hf). simpl.
    replace (Z.of_nat (length pool) <? amount) with false by lia.
    destruct (draw_returns (Z.to_nat amount) g pool [])
      as (taken & rest & g' & Hd & _); [lia|]. eauto.
  - intros words g' Hr.
    destruct (RandomWord.filter re_fullmatch self starts_with ends_with
                include_categories include_parts_of_speech word_min_length
                word_max_length regex exclude_with_spaces)
      as [pool|e] eqn:Hf;
      [|by rewrite (random_words_propagates _ _ _ _ _ _ _ _ _ _ _ _ _ _ Hf)
           in Hr].
    rewrite (random_words_filtered _ _ _ _ _ _ _ _ _ _ _ _ _ _ Hf) in Hr.
    simpl in Hr.
    destruct (Z.of_nat (length pool) <? amount) eqn:Hlt; [done|].
    destruct (draw_returns (Z.to_nat amount) g pool [])
      as (taken & rest & g'' & Hd & Hlen & Hp); [lia|].
    rewrite Hd in Hr. injection Hr as <- <-.
    pose proof (filter_NoDup _ _ _ _ _ _ _ _ _ _ _ Hf) as Hnd.
    rewrite Hp in Hnd. apply NoDup_app in Hnd as (Hnd & _ & _).
    exists pool. simpl. repeat split; try done.
    + intros w Hw. rewrite Hp. set_solver.
    + intros Hall. rewrite Hp.
      apply Permutation_length in Hp. rewrite length_app in Hp.
      assert (length rest = 0%nat) as Hrest by lia.
      apply length_zero_iff_nil in Hrest as ->. by rewrite app_nil_r.
Qed.

Lemma random_words_distinct_witness :
  exists words g',
    RandomWord.random_words Fragment.fragment_fullmatch
      (RandomWord.__init__ no_defaults false example_kwargs) example_rng 3
      "" "" (Some ["noun"]) None PyNone PyNone None false false
    = Ok (words, g')
    /\ NoDup words
    /\ length words = 3%nat.
Proof.
  destruct (random_words_distinct Fragment.fragment_fullmatch
              (RandomWord.__init__ no_defaults false example_kwargs)
              example_rng 3 "" "" (Some ["noun"]) None PyNone PyNone None
              false) as [Hret Hsound].
  destruct (Hret ["orange"; "ant"; "apple"])
    as (words & g' & Hr); [vm_compute; reflexivity|vm_compute; discriminate|].
  destruct (Hsound words g' Hr) as (pool & _ & Hnd & _ & Hlen & _).
  exists words, g'. split; [exact Hr|]. split; [exact Hnd|exact Hlen].
Defined.

(** ** What the stages of [filter] compute *)

Section selection.
Implicit Types (self : RandomWord.t) (words acc : gset string).

Lemma select_known self lo hi (cats : list string) acc :
  sorted_categories self ->
  Forall (fun k => is_Some (RandomWord._categories self !! k)) cats ->
  for_each cats (RandomWord.add_category self lo hi) acc
  = Ok (acc ∪ selected self lo hi cats).
Proof.
  intros Hs Hk. revert acc. unfold selected.
  induction Hk as [|k cats [l Hl] _ IH]; intros acc; simpl.
  - f_equal. set_solver.
  - rewrite (add_category_known _ _ _ _ l) by done.
    rewrite get_words_of_length_sorted by (by eapply Hs).
    simpl. rewrite IH. f_equal.
    unfold category_words at 2. rewrite Hl. simpl. set_solver.
Qed.

(** The loop either stops at an unknown category, whatever the bounds,
    or returns the selected words. *)
Lemma select_cases self (cats : list string) :
  sorted_categories self ->
  (exists c, forall lo hi acc,
      for_each cats (RandomWord.add_category self lo hi) acc
      = Raise (invalid_category c))
  \/ (forall lo hi acc,
        for_each cats (RandomWord.add_category self lo hi) acc
        = Ok (acc ∪ selected self lo hi cats)).
Proof.
  intros Hs.
  destruct (decide (Exists (fun c => RandomWord._categories self !! c = None)
                      cats)) as [Hex|Hall].
  - left. destruct (first_unknown self cats Hex)
      as (known & c & rest & -> & Hk & Hc).
    exists c. intros. by apply for_each_unknown_category.
  - right. intros. apply select_known; [done|].
    apply Forall_forall. intros c Hin.
    destruct (RandomWord._categories self !! c) eqn:Hc; [done|].
    exfalso. apply Hall, Exists_exists. eauto.
Qed.

Lemma elem_of_selected self lo hi (cats : list string) (w : string) :
  w ∈ selected self lo hi cats
  <-> exists c l, c ∈ cats /\ RandomWord._categories self !! c = Some l
                  /\ w ∈ l /\ within lo hi (len w).
Proof.
  unfold selected. rewrite elem_of_union_list. split.
  - intros (X & HX & Hw). apply list_elem_of_fmap in HX as (c & -> & Hc).
    unfold category_words in Hw. apply elem_of_list_to_set in Hw.
    apply list_elem_of_filter in Hw as [Hin Hw].
    destruct (RandomWord._categories self !! c) as [l|] eqn:Hl;
      [|by apply elem_of_nil in Hw].
    by exists c, l.
  - intros (c & l & Hc & Hl & Hin & Hw).
    exists (category_words self lo hi c). split.
    + apply list_elem_of_fmap. by exists c.
    + unfold category_words. rewrite Hl. simpl.
      apply elem_of_list_to_set, list_elem_of_filter. done.
Qed.
End selection.

(** ** The long operations *)

Section long_operations.
Context (re_fullmatch : matcher).
Implicit Types (ops : RandomWord.operations) (acc words : gset string).

Lemma long_operations_body_verdict ops (w : string) acc :
  well_typed ops ->
  RandomWord.long_operations_body re_fullmatch ops w acc
  = match verdict re_fullmatch ops w with
    | None => Raise (ReError (pattern_of ops))
    | Some true => Ok ({[w]} ∪ acc)
    | Some false => Ok acc
    end.
Proof.
  intros (Hr & Hs & He).
  unfold RandomWord.long_operations_body, verdict, pattern_of.
  destruct (ops !! "regex") as [[pat|]|]; [|done|]; simpl;
    destruct (ops !! "exclude_with_spaces") as [?|];
    destruct (ops !! "starts_with") as [[pre|]|]; try done;
    destruct (ops !! "ends_with") as [[suf|]|]; try done; simpl;
    try destruct (re_fullmatch pat w) as [[]|]; simpl; try done;
    destruct (has_space w); simpl;
    try destruct (startswith w pre); simpl;
    try destruct (endswith w suf); simpl;
    f_equal; set_solver.
Qed.

(** The loop over a list of words: it raises as soon as the matcher
    does, and otherwise adds the removed words. *)
Lemma perform_loop ops (l : list string) acc :
  well_typed ops ->
  for_each l (RandomWord.long_operations_body re_fullmatch ops) acc
  = if decide (Forall (fun w => verdict re_fullmatch ops w <> None) l) then
      Ok (acc ∪ list_to_set
                  (filter (fun w => verdict re_fullmatch ops w = Some true) l))
    else Raise (ReError (pattern_of ops)).
Proof.
  intros Ht. revert acc. induction l as [|w l IH]; intros acc.
  - case_decide as Hall; [|by destruct Hall].
    cbn. f_equal. set_solver.
  - cbn [for_each]. rewrite long_operations_body_verdict by done.
    destruct (verdict re_fullmatch ops w) as [[]|] eqn:Hv;
      cbn [mbind result_bind].
    + rewrite IH.
      destruct (decide (Forall _ l)) as [Hl|Hl];
        destruct (decide (Forall _ (w :: l))) as [Hwl|Hwl]; try done.
      * rewrite filter_cons_True by done. f_equal. set_solver.
      * exfalso. apply Hwl. constructor; [congruence|done].
      * exfalso. by apply Forall_cons_1 in Hwl as [_ ?].
    + rewrite IH.
      destruct (decide (Forall _ l)) as [Hl|Hl];
        destruct (decide (Forall _ (w :: l))) as [Hwl|Hwl]; try done.
      * rewrite filter_cons_False by congruence. done.
      * exfalso. apply Hwl. constructor; [congruence|done].
      * exfalso. by apply Forall_cons_1 in Hwl as [_ ?].
    + destruct (decide (Forall _ (w :: l))) as [Hall|Hall]; [|reflexivity].
      apply Forall_cons_1 in Hall as [? _]. congruence.
Qed.

(** [words -= self._perform_long_operations(words, long_operations)]:
    either the matcher raises on a word of the set, or the words that
    pass every requested test remain. *)
Lemma perform_long_operations_spec ops words :
  well_typed ops ->
  (remove_words ← RandomWord._perform_long_operations re_fullmatch words ops;
   Ok (words ∖ remove_words))
  = if decide (set_Forall (fun w => verdict re_fullmatch ops w <> None) words)
    then Ok (filter (fun w => verdict re_fullmatch ops w = Some false) words)
    else Raise (ReError (pattern_of ops)).
Proof.
  intros Ht. unfold RandomWord._perform_long_operations.
  rewrite perform_loop by done.
  destruct (decide (Forall _ (elements words))) as [Hall|Hall].
  - rewrite decide_True.
    2:{ intros w Hw. eapply Forall_forall in Hall; [done|].
        by apply elem_of_elements. }
    simpl. f_equal. apply set_eq. intros w.
    rewrite elem_of_difference, elem_of_filter, elem_of_union,
      elem_of_list_to_set, list_elem_of_filter, elem_of_elements.
    split.
    + intros [Hw Hn]. split; [|done].
      eapply Forall_forall in Hall; [|by apply elem_of_elements].
      destruct (verdict re_fullmatch ops w) as [[]|]; try done.
      exfalso. apply Hn. by right.
    + intros [Hv Hw]. split; [done|].
      intros [Hin|[Hv' _]]; [by apply elem_of_empty in Hin|congruence].
  - rewrite decide_False; [done|]. intros Hs. apply Hall.
    apply Forall_forall. intros w Hw. by apply Hs, elem_of_elements.
Qed.

(** An empty dict removes nothing, so skipping the loop for it changes
    nothing. *)
Lemma verdict_empty (w : string) : verdict re_fullmatch ∅ w = Some false.
Proof. reflexivity. Qed.
End long_operations.

(** ** [filter], stage by stage *)

Section filter_spec.
Context (re_fullmatch : matcher).
Implicit Types (self : RandomWord.t) (words : gset string).

Lemma startswith_empty (w : string) : startswith w "" = true.
Proof. apply bool_decide_eq_true. apply prefix_nil. Qed.

Lemma endswith_empty (w : string) : endswith w "" = true.
Proof. apply bool_decide_eq_true. apply suffix_nil. Qed.

Lemma nonempty_false (s : string) : nonempty s = false -> s = "".
Proof.
  unfold nonempty. intros H. apply bool_decide_eq_false in H.
  by destruct (decide (s = "")).
Qed.

(** The dicts [filter] builds hold a string wherever one is read. *)
Lemma collect_operations_well_typed self sw ew rx ews :
  well_typed (RandomWord.collect_operations self sw ew rx ews).
Proof.
  unfold well_typed, RandomWord.collect_operations.
  destruct rx, ews, (RandomWord._tries self), (nonempty sw), (nonempty ew);
    repeat split; simplify_map_eq; done.
Qed.

(** The test of the loop on an engine without tries. *)
Lemma verdict_plain self sw ew rx ews (w : string) :
  RandomWord._tries self = None ->
  verdict re_fullmatch (RandomWord.collect_operations self sw ew rx ews) w
  = (fun m => negb (m && spaces_ok ews w && affixes_ok sw ew w))
      <$> matched re_fullmatch rx w.
Proof.
  intros Ht. unfold verdict, RandomWord.collect_operations, matched,
    spaces_ok, affixes_ok. rewrite Ht.
  destruct (nonempty sw) eqn:Hsw, (nonempty ew) eqn:Hew;
    try (apply nonempty_false in Hsw as ->);
    try (apply nonempty_false in Hew as ->);
    rewrite ?startswith_empty, ?endswith_empty;
    destruct rx as [p|], ews; simplify_map_eq;
    try destruct (re_fullmatch p w) as [[]|]; simpl;
    try destruct (has_space w); simpl;
    try destruct (startswith w sw); simpl;
    try destruct (endswith w ew); simpl; done.
Qed.

(** The test of the loop on an engine with tries: the affixes are not
    looked at again. *)
Lemma verdict_indexed self sw ew rx ews (w : string) :
  is_Some (RandomWord._tries self) ->
  verdict re_fullmatch (RandomWord.collect_operations self sw ew rx ews) w
  = (fun m => negb (m && spaces_ok ews w)) <$> matched re_fullmatch rx w.
Proof.
  intros [tries Ht]. unfold verdict, RandomWord.collect_operations, matched,
    spaces_ok. rewrite Ht.
  destruct rx as [p|], ews; simplify_map_eq;
    try destruct (re_fullmatch p w) as [[]|]; simpl;
    try destruct (has_space w); simpl; done.
Qed.

Lemma pattern_of_collect self sw ew rx ews :
  pattern_of (RandomWord.collect_operations self sw ew rx ews)
  = default "" rx.
Proof.
  unfold pattern_of, RandomWord.collect_operations.
  destruct rx, ews, (RandomWord._tries self), (nonempty sw), (nonempty ew);
    simplify_map_eq; done.
Qed.

(** [filter] after the bounds and the categories are settled: the
    selected words are narrowed by the tries, and the loop either
    raises on a word of the narrowed set or keeps the words it
    accepts. *)
Lemma filter_words_spec self sw ew (cats : list string) lo hi rx ews :
  sorted_categories self ->
  Forall (fun k => is_Some (RandomWord._categories self !! k)) cats ->
  filter_words re_fullmatch self sw ew cats lo hi rx ews
  = let narrowed :=
      RandomWord.narrow_by_tries self sw ew (selected self lo hi cats) in
    let ops :=
      RandomWord.collect_operations self sw narrowed.2 rx ews in
    if decide (set_Forall (fun w => verdict re_fullmatch ops w <> None)
                 narrowed.1)
    then Ok (elements
               (filter (fun w => verdict re_fullmatch ops w = Some false)
                  narrowed.1))
    else Raise (ReError (default "" rx)).
Proof.
  intros Hs Hk. unfold filter_words.
  rewrite select_known by done. rewrite (left_id_L ∅ (∪)).
  cbn [mbind result_bind].
  destruct (RandomWord.narrow_by_tries self sw ew (selected self lo hi cats))
    as [words ew'] eqn:Hn.
  cbn [fst snd].
  set (ops := RandomWord.collect_operations self sw ew' rx ews).
  destruct (decide (ops = ∅)) as [He|Hne].
  - rewrite He. cbn [mbind result_bind].
    rewrite decide_True by (intros w _; by rewrite verdict_empty).
    do 2 f_equal. apply set_eq. intros w. rewrite elem_of_filter.
    rewrite verdict_empty. naive_solver.
  - pose proof (perform_long_operations_spec re_fullmatch ops words
                  (collect_operations_well_typed self sw ew' rx ews)) as Hp.
    fold ops in Hp. rewrite Hp.
    unfold ops. rewrite pattern_of_collect.
    by destruct (decide (set_Forall _ words)).
Qed.
End filter_spec.

(** ** The constructor *)

Section sorting.
Implicit Types (w : string) (l : list string).

Lemma insert_by_len_Permutation w l : insert_by_len w l ≡ₚ w :: l.
Proof.
  induction l as [|x l IH]; simpl; [done|].
  case_decide; [done|]. by rewrite IH, Permutation_swap.
Qed.

Lemma sort_by_len_Permutation l : sort_by_len l ≡ₚ l.
Proof.
  induction l as [|w l IH]; simpl; [done|].
  by rewrite insert_by_len_Permutation, IH.
Qed.

Lemma insert_by_len_sorted w l :
  sorted_by_len l -> sorted_by_len (insert_by_len w l).
Proof.
  unfold sorted_by_len. induction 1 as [|x l Hs IH Hx]; simpl.
  - repeat constructor.
  - case_decide as Hle.
    + constructor; [by constructor|].
      constructor; [done|]. eapply Forall_impl; [exact Hx|].
      intros y Hy. simpl in Hy. lia.
    + constructor; [done|].
      rewrite insert_by_len_Permutation. constructor; [lia|done].
Qed.

Lemma sort_by_len_sorted l : sorted_by_len (sort_by_len l).
Proof.
  induction l as [|w l IH]; simpl; [constructor|].
  by apply insert_by_len_sorted.
Qed.

(** The sort is stable: the words of one length keep their order. *)
Lemma insert_by_len_stable (n : Z) w l :
  filter (fun x => len x = n) (insert_by_len w l)
  = filter (fun x => len x = n) (w :: l).
Proof.
  induction l as [|x l IH]; simpl; [done|].
  case_decide as Hle; [done|].
  rewrite !filter_cons. rewrite !filter_cons in IH.
  destruct (decide (len x = n)), (decide (len w = n)); try lia;
    by rewrite IH.
Qed.

Lemma sort_by_len_stable (n : Z) l :
  filter (fun x => len x = n) (sort_by_len l)
  = filter (fun x => len x = n) l.
Proof.
  induction l as [|w l IH]; simpl; [done|].
  by rewrite insert_by_len_stable, !filter_cons, IH.
Qed.
End sorting.

Section constructor.
Context (_default_categories : Defaults -> list string).
Implicit Types (kwargs : list (string * category_source)).

Lemma custom_categories_sorted kwargs :
  map_Forall (fun _ l => sorted_by_len l)
    (RandomWord._custom_categories _default_categories kwargs).
Proof.
  unfold RandomWord._custom_categories.
  assert (forall (out : gmap string (list string)),
            map_Forall (fun _ l => sorted_by_len l) out ->
            map_Forall (fun _ l => sorted_by_len l)
              (foldl (fun out '(name, words) =>
                        let word_list :=
                          match words with
                          | Default d => _default_categories d
                          | Words l => l
                          end in
                        <[name := sort_by_len word_list]> out)
                     out kwargs)) as Hgen.
  { induction kwargs as [|[name words] kwargs IH]; intros out Hout;
      simpl; [done|].
    apply IH. apply map_Forall_insert_2; [|done].
    apply sort_by_len_sorted. }
  apply Hgen, map_Forall_empty.
Qed.

(** Every engine the constructor builds has its categories sorted by
    length. *)
Lemma init_sorted (enhanced_prefixes : bool) kwargs :
  sorted_categories
    (RandomWord.__init__ _default_categories enhanced_prefixes kwargs).
Proof.
  unfold sorted_categories, RandomWord.__init__. simpl.
  destruct kwargs; apply custom_categories_sorted.
Qed.

Lemma init_categories (enhanced_prefixes : bool) kwargs :
  RandomWord._categories
    (RandomWord.__init__ _default_categories enhanced_prefixes kwargs)
  = RandomWord._categories
      (RandomWord.__init__ _default_categories false kwargs).
Proof. reflexivity. Qed.
End constructor.

(** ** A maximal length of zero *)

Section max_length_zero.
Context (re_fullmatch : matcher).
Implicit Types (self : RandomWord.t) (words : gset string).

(** With [word_max_length = 0] the bounds pass as they do without a
    maximum, and the maximum stays 0. *)
Lemma validate_lengths_zero (lo : pyarg) :
  RandomWord._validate_lengths lo (PyInt 0)
  = (fun bounds => (bounds.1, Some 0))
      <$> RandomWord._validate_lengths lo PyNone.
Proof.
  unfold RandomWord._validate_lengths.
  destruct lo as [|l|]; simpl; try done.
  rewrite ?andb_false_r. simpl. by destruct (l <? 0).
Qed.

Lemma len_nonneg (w : string) : 0 <= len w.
Proof. unfold len. lia. Qed.

Lemma selected_max_zero self lo (cats : list string) :
  selected self lo (Some 0) cats
  = filter (fun w => len w = 0) (selected self lo None cats).
Proof.
  apply set_eq. intros w.
  rewrite elem_of_filter, !elem_of_selected. unfold within. simpl.
  pose proof (len_nonneg w).
  split.
  - intros (c & l & Hc & Hl & Hw & Hlo & Hhi).
    split; [lia|]. by exists c, l.
  - intros (Hz & c & l & Hc & Hl & Hw & Hlo & _).
    exists c, l. repeat split; try done. lia.
Qed.

(** Narrowing by the tries commutes with any test on the words. *)
Lemma narrow_filter self sw ew words (P : string -> Prop)
    `{!forall w, Decision (P w)} :
  RandomWord.narrow_by_tries self sw ew (filter P words)
  = (filter P (RandomWord.narrow_by_tries self sw ew words).1,
     (RandomWord.narrow_by_tries self sw ew words).2).
Proof.
  unfold RandomWord.narrow_by_tries.
  destruct (RandomWord._tries self) as [[t0 t1]|]; [|done].
  destruct (nonempty sw), (nonempty ew); simpl; f_equal; set_solver.
Qed.

Lemma elements_filter_Permutation words (P : string -> Prop)
    `{!forall w, Decision (P w)} :
  elements (filter P words) ≡ₚ filter P (elements words).
Proof.
  apply NoDup_Permutation.
  - apply NoDup_elements.
  - apply NoDup_filter, NoDup_elements.
  - intros w. rewrite elem_of_elements, elem_of_filter,
      list_elem_of_filter, elem_of_elements. done.
Qed.

(** The two calls once the bounds and the categories are settled. *)
Lemma filter_words_max_zero self sw ew (cats : list string) lo rx ews pool :
  sorted_categories self ->
  filter_words re_fullmatch self sw ew cats lo None rx ews = Ok pool ->
  exists pool0,
    filter_words re_fullmatch self sw ew cats lo (Some 0) rx ews = Ok pool0
    /\ pool0 ≡ₚ filter (fun w => len w = 0) pool.
Proof.
  intros Hs Hf.
  destruct (decide (Exists (fun c => RandomWord._categories self !! c = None)
                      cats)) as [Hex|Hall].
  { destruct (first_unknown self cats Hex)
      as (known & c & rest & -> & Hk & Hc).
    unfold filter_words in Hf.
    by rewrite (for_each_unknown_category self _ _ known rest c) in Hf. }
  assert (Forall (fun k => is_Some (RandomWord._categories self !! k)) cats)
    as Hk.
  { apply Forall_forall. intros c Hin.
    destruct (RandomWord._categories self !! c) eqn:Hc; [done|].
    exfalso. apply Hall, Exists_exists. eauto. }
  rewrite filter_words_spec in Hf |- * by done.
  rewrite selected_max_zero, narrow_filter. cbn [fst snd].
  cbn zeta in Hf |- *.
  destruct (RandomWord.narrow_by_tries self sw ew (selected self lo None cats))
    as [words ew'].
  cbn [fst snd] in Hf |- *.
  set (ops := RandomWord.collect_operations self sw ew' rx ews) in *.
  destruct (decide (set_Forall _ words)) as [Hall'|]; [|done].
  injection Hf as <-.
  rewrite decide_True.
  2:{ intros w Hw. apply Hall'. by apply elem_of_filter in Hw as [_ ?]. }
  eexists. split; [done|].
  rewrite <- elements_filter_Permutation.
  apply NoDup_Permutation; [apply NoDup_elements..|].
  intros w. rewrite !elem_of_elements, !elem_of_filter. tauto.
Qed.
End max_length_zero.

(** C2: the code at the failing input.  The comparison of
    [_validate_lengths] lets a maximal length of 0 through where any other
    maximum below the minimum is refused, as if 0 stood for no maximum;
    but the 0 is returned as the bound it is, and the bisection applies
    it.  A call with [word_max_length = 0] therefore returns no word of
    positive length, where the call without a maximum returns them all. *)
Lemma max_length_zero_is_a_bound :
  RandomWord.filter Fragment.fragment_fullmatch
    (RandomWord.__init__ no_defaults false example_kwargs)
    "" "" None None PyNone (PyInt 0) None false
  = Ok []
  /\ list_to_set (C := gset string) <$>
       RandomWord.filter Fragment.fragment_fullmatch
         (RandomWord.__init__ no_defaults false example_kwargs)
         "" "" None None PyNone PyNone None false
     = Ok {["ant"; "red"; "apple"; "angry"; "orange"]}
  /\ RandomWord._validate_lengths (PyInt 3) (PyInt 2) = Raise invalid_bounds
  /\ RandomWord._validate_lengths (PyInt 3) (PyInt 0) = Ok (Some 3, Some 0)
  /\ RandomWord.filter Fragment.fragment_fullmatch
       (RandomWord.__init__ no_defaults false example_kwargs)
       "" "" None None (PyInt 3) (PyInt 0) None false
     = Ok [].
Proof. repeat split; vm_compute; reflexivity. Qed.

(** What a maximal length of 0 does in general: on an engine built by the
    constructor, where the call without a maximum returns a pool, the
    call with [word_max_length = 0] returns the words of length 0 of that
    pool (the empty word, if it is there) and no other word. *)
Theorem filter_max_length_zero (re_fullmatch : matcher)
    (_default_categories : Defaults -> list string)
    (enhanced_prefixes : bool) (kwargs : list (string * category_source))
    (starts_with ends_with : string)
    (include_categories include_parts_of_speech : option (list string))
    (word_min_length : pyarg)
    (regex : option string) (exclude_with_spaces : bool)
    (pool : list string) :
  RandomWord.filter re_fullmatch
    (RandomWord.__init__ _default_categories enhanced_prefixes kwargs)
    starts_with ends_with include_categories include_parts_of_speech
    word_min_length PyNone regex exclude_with_spaces = Ok pool ->
  exists pool0,
    RandomWord.filter re_fullmatch
      (RandomWord.__init__ _default_categories enhanced_prefixes kwargs)
      starts_with ends_with include_categories include_parts_of_speech
      word_min_length (PyInt 0) regex exclude_with_spaces = Ok pool0
    /\ pool0 ≡ₚ filter (fun w => len w = 0) pool.
Proof.
  intros Hf. rewrite filter_stages in Hf |- *.
  rewrite validate_lengths_zero.
  destruct (RandomWord._validate_lengths word_min_length PyNone)
    as [[lo hi]|e] eqn:Hv; [|done].
  assert (hi = None) as ->.
  { unfold RandomWord._validate_lengths in Hv.
    destruct word_min_length as [|l|]; simpl in Hv;
      try destruct (l <? 0); by inversion Hv. }
  simpl in Hf |- *.
  by apply filter_words_max_zero; [apply init_sorted|].
Qed.

Lemma filter_max_length_zero_witness :
  exists pool0,
    RandomWord.filter Fragment.fragment_fullmatch
      (RandomWord.__init__ no_defaults true
         [("noun", Words ["apple"; ""; "ant"])])
      "" "" None None (PyInt (-2)) (PyInt 0) None false = Ok pool0
    /\ pool0 ≡ₚ [""].
Proof.
  apply (filter_max_length_zero Fragment.fragment_fullmatch no_defaults true
           [("noun", Words ["apple"; ""; "ant"])]
           "" "" None None (PyInt (-2)) None false
           ["ant"; "apple"; ""]).
  vm_compute. reflexivity.
Defined.

(** ** The tries hold the words of the categories *)

Section trie.
Implicit Types (n : Trie.TrieNode) (ch : list (ascii * Trie.TrieNode))
  (cs path : list ascii) (c : ascii) (w x : string) (ws : list string).

Lemma str_chars w : str (chars w) = w.
Proof. apply string_of_list_ascii_of_string. Qed.

Lemma chars_str cs : chars (str cs) = cs.
Proof. apply list_ascii_of_string_of_list_ascii. Qed.

Lemma chars_inj w x : chars w = chars x -> w = x.
Proof. intros H. by rewrite <- (str_chars w), H, str_chars. Qed.

Lemma trie_wf_Node e ch :
  trie_wf (Trie.Node e ch)
  <-> NoDup ch.*1 /\ Forall (fun p => trie_wf (snd p)) ch.
Proof.
  simpl. apply and_iff_compat_l.
  induction ch as [|p ch IH]; simpl.
  - split; [constructor|done].
  - rewrite IH, Forall_cons. done.
Qed.

Lemma trie_wf_empty : trie_wf Trie.empty.
Proof. apply trie_wf_Node. split; constructor. Qed.

(** *** One level: the children of a node *)

Lemma child_with_child c c' (f : Trie.TrieNode -> Trie.TrieNode) ch :
  Trie.child c' (Trie.with_child c f ch)
  = if decide (c' = c)
    then Some (f (default Trie.empty (Trie.child c ch)))
    else Trie.child c' ch.
Proof.
  induction ch as [|[c0 n0] ch IH]; simpl.
  - by destruct (decide (c' = c)).
  - destruct (decide (c = c0)) as [->|Hne]; simpl.
    + by destruct (decide (c' = c0)) as [->|].
    + rewrite IH. destruct (decide (c' = c0)) as [->|]; [|done].
      by rewrite decide_False by congruence.
Qed.

Lemma elem_of_keys_with_child c c' (f : Trie.TrieNode -> Trie.TrieNode) ch :
  c' ∈ (Trie.with_child c f ch).*1 <-> c' = c \/ c' ∈ ch.*1.
Proof.
  induction ch as [|[c0 n0] ch IH]; simpl.
  - rewrite list_elem_of_singleton. rewrite elem_of_nil. tauto.
  - destruct (decide (c = c0)) as [->|Hne]; simpl.
    + rewrite !elem_of_cons. tauto.
    + rewrite !elem_of_cons, IH. tauto.
Qed.

Lemma NoDup_keys_with_child c (f : Trie.TrieNode -> Trie.TrieNode) ch :
  NoDup ch.*1 -> NoDup (Trie.with_child c f ch).*1.
Proof.
  induction ch as [|[c0 n0] ch IH]; simpl.
  - intros _. apply NoDup_singleton.
  - intros [Hnotin Hnd]%NoDup_cons.
    destruct (decide (c = c0)) as [->|Hne]; simpl.
    + by apply NoDup_cons.
    + apply NoDup_cons. split; [|by apply IH].
      rewrite elem_of_keys_with_child. intros [?|?]; [congruence|done].
Qed.

Lemma Forall_with_child (P : Trie.TrieNode -> Prop) c
    (f : Trie.TrieNode -> Trie.TrieNode) ch :
  (forall n, P n -> P (f n)) -> P Trie.empty ->
  Forall (fun p => P (snd p)) ch ->
  Forall (fun p => P (snd p)) (Trie.with_child c f ch).
Proof.
  intros Hf He. induction 1 as [|[c0 n0] ch Hn Hch IH]; simpl.
  - repeat constructor. by apply Hf.
  - destruct (decide (c = c0)) as [->|Hne]; constructor; simpl; auto.
Qed.

Lemma child_Some ch c n :
  NoDup ch.*1 -> Trie.child c ch = Some n <-> (c, n) ∈ ch.
Proof.
  induction ch as [|[c0 n0] ch IH]; simpl.
  - intros _. rewrite elem_of_nil. split; [done|tauto].
  - intros [Hnotin Hnd]%NoDup_cons. rewrite elem_of_cons.
    destruct (decide (c = c0)) as [->|Hne].
    + split; [intros [= ->]; by left|].
      intros [[= ->]|Hin]; [done|].
      exfalso. apply Hnotin. apply list_elem_of_fmap. by exists (c0, n).
    + rewrite IH by done. split; [by right|].
      intros [[= -> ->]|Hin]; [done|done].
Qed.

(** *** [insert] *)

Lemma trie_wf_insert_chars cs n :
  trie_wf n -> trie_wf (Trie.insert_chars cs n).
Proof.
  revert n. induction cs as [|c cs IH]; intros [e ch] Hwf;
    cbn [Trie.insert_chars Trie.children Trie.is_end].
  - apply trie_wf_Node. by apply trie_wf_Node in Hwf.
  - apply trie_wf_Node in Hwf as [Hnd Hch]. apply trie_wf_Node. split.
    + by apply NoDup_keys_with_child.
    + apply Forall_with_child; auto using trie_wf_empty.
Qed.

Lemma trie_holds_nil n : trie_holds n [] <-> Trie.is_end n = true.
Proof.
  unfold trie_holds. simpl. split.
  - by intros (n' & [= <-] & He).
  - intros He. by exists n.
Qed.

Lemma trie_holds_cons n c cs :
  trie_holds n (c :: cs)
  <-> exists n', Trie.child c (Trie.children n) = Some n'
                 /\ trie_holds n' cs.
Proof.
  unfold trie_holds. simpl. split.
  - intros (n'' & Hw & He).
    destruct (Trie.child c (Trie.children n)) as [n'|]; [|done].
    exists n'. split; [done|]. by exists n''.
  - intros (n' & -> & n'' & Hw & He). by exists n''.
Qed.

Lemma trie_holds_empty cs : ¬ trie_holds Trie.empty cs.
Proof.
  destruct cs as [|c cs].
  - by rewrite trie_holds_nil.
  - rewrite trie_holds_cons. by intros (n' & [=] & _).
Qed.

(** After [insert] the trie holds the word inserted and what it held. *)
Lemma trie_holds_insert_chars cs' n cs :
  trie_holds (Trie.insert_chars cs' n) cs <-> cs = cs' \/ trie_holds n cs.
Proof.
  revert n cs. induction cs' as [|c cs' IH]; intros [e ch] cs; simpl.
  - destruct cs as [|c0 cs].
    + rewrite !trie_holds_nil. simpl. tauto.
    + rewrite !trie_holds_cons. simpl. split; [tauto|].
      by intros [[=]|?].
  - destruct cs as [|c0 cs].
    + rewrite !trie_holds_nil. simpl. split; [tauto|]. by intros [[=]|?].
    + rewrite !trie_holds_cons. simpl.
      setoid_rewrite child_with_child.
      destruct (decide (c0 = c)) as [->|Hne].
      * split.
        -- intros (n' & [= <-] & Hh). apply IH in Hh as [->|Hh]; [by left|].
           destruct (Trie.child c ch) as [n0|] eqn:Hc; simpl in Hh.
           ++ right. by exists n0.
           ++ by apply trie_holds_empty in Hh.
        -- intros [[= ->]|(n0 & Hc & Hh)].
           ++ eexists. split; [done|]. apply IH. by left.
           ++ eexists. split; [done|]. apply IH. right.
              by rewrite Hc.
      * split; [tauto|]. intros [[=]|?]; [congruence|done].
Qed.

Lemma trie_wf_foldl_insert ws n :
  trie_wf n -> trie_wf (foldl Trie.insert n ws).
Proof.
  revert n. induction ws as [|w ws IH]; intros n Hwf; simpl; [done|].
  by apply IH, trie_wf_insert_chars.
Qed.

Lemma trie_holds_foldl_insert ws n cs :
  trie_holds (foldl Trie.insert n ws) cs
  <-> trie_holds n cs \/ exists w, w ∈ ws /\ chars w = cs.
Proof.
  revert n. induction ws as [|w ws IH]; intros n; simpl.
  - split; [by left|]. intros [?|(w & Hw & _)]; [done|].
    by apply elem_of_nil in Hw.
  - rewrite IH. unfold Trie.insert. rewrite trie_holds_insert_chars.
    split.
    + intros [[->|?]|(w' & Hw' & <-)].
      * right. exists w. split; [by left|done].
      * by left.
      * right. exists w'. split; [by right|done].
    + intros [?|(w' & Hw' & <-)]; [by left; right|].
      apply elem_of_cons in Hw' as [->|Hw'].
      * left. by left.
      * right. by exists w'.
Qed.

(** *** [get_words_that_start_with] *)

Lemma walk_app cs cs' n :
  Trie.walk (cs ++ cs') n = Trie.walk cs n ≫= Trie.walk cs'.
Proof.
  revert n. induction cs as [|c cs IH]; intros n; simpl; [done|].
  destruct (Trie.child c (Trie.children n)); simpl; [apply IH|done].
Qed.

Lemma elem_of_collect n :
  trie_wf n ->
  forall path x,
    x ∈ Trie.collect path n
    <-> exists cs, x = str (reverse path ++ cs) /\ trie_holds n cs.
Proof.
  induction n as [e ch IH] using TrieNode_induction.
  intros [Hnd Hch]%trie_wf_Node path x. cbn [Trie.collect].
  rewrite elem_of_app, (list_elem_of_In (flat_map _ _)), in_flat_map.
  setoid_rewrite <- list_elem_of_In.
  split.
  - intros [He|([c n'] & Hin & Hx)].
    + destruct e; [|by apply elem_of_nil in He].
      apply list_elem_of_singleton in He as ->.
      exists []. rewrite app_nil_r. split; [done|].
      by apply trie_holds_nil.
    + simpl in Hx.
      rewrite Forall_forall in IH, Hch.
      apply (IH _ Hin (Hch _ Hin)) in Hx as (cs & -> & Hh).
      exists (c :: cs). split.
      * by rewrite reverse_cons, <- app_assoc.
      * apply trie_holds_cons. exists n'. split; [|done].
        simpl. by apply child_Some.
  - intros (cs & -> & Hh). destruct cs as [|c cs].
    + left. apply trie_holds_nil in Hh. simpl in Hh. subst e.
      rewrite app_nil_r. by apply list_elem_of_singleton.
    + right. apply trie_holds_cons in Hh as (n' & Hc & Hh).
      simpl in Hc. apply child_Some in Hc; [|done].
      exists (c, n'). split; [done|]. simpl.
      rewrite Forall_forall in IH, Hch.
      apply (IH _ Hc (Hch _ Hc)). exists cs. split; [|done].
      by rewrite reverse_cons, <- app_assoc.
Qed.

Lemma trie_wf_walk cs n n' :
  trie_wf n -> Trie.walk cs n = Some n' -> trie_wf n'.
Proof.
  revert n. induction cs as [|c cs IH]; intros [e ch] Hwf; simpl.
  - by intros [= <-].
  - destruct (Trie.child c ch) as [n1|] eqn:Hc; [|done]. simpl.
    apply IH. apply trie_wf_Node in Hwf as [Hnd Hch].
    apply child_Some in Hc; [|done].
    rewrite Forall_forall in Hch. apply (Hch _ Hc).
Qed.

Lemma trie_holds_app cs cs' n :
  trie_holds n (cs ++ cs')
  <-> exists n', Trie.walk cs n = Some n' /\ trie_holds n' cs'.
Proof.
  unfold trie_holds. setoid_rewrite walk_app. split.
  - intros (n'' & Hw & He).
    destruct (Trie.walk cs n) as [n'|]; [|done].
    exists n'. split; [done|]. by exists n''.
  - intros (n' & -> & n'' & Hw & He). by exists n''.
Qed.

(** The lookup returns the words the trie holds that start with the
    prefix. *)
Lemma elem_of_get_words_that_start_with n (prefix x : string) :
  trie_wf n ->
  x ∈ Trie.get_words_that_start_with n prefix
  <-> trie_holds n (chars x) /\ startswith x prefix = true.
Proof.
  intros Hwf. unfold Trie.get_words_that_start_with, startswith.
  rewrite bool_decide_eq_true.
  destruct (Trie.walk (chars prefix) n) as [n'|] eqn:Hw.
  - rewrite elem_of_list_to_set, elem_of_collect
      by (by eapply trie_wf_walk).
    rewrite reverse_involutive. split.
    + intros (cs & -> & Hh). rewrite chars_str. split.
      * apply trie_holds_app. by exists n'.
      * by exists cs.
    + intros [Hh [cs Hcs]]. exists cs. split.
      * by rewrite <- Hcs, str_chars.
      * rewrite Hcs in Hh. apply trie_holds_app in Hh as (n'' & Hw' & Hh).
        congruence.
  - split; [by intros ?%elem_of_empty|].
    intros [Hh [cs Hcs]]. rewrite Hcs in Hh.
    apply trie_holds_app in Hh as (n'' & Hw' & _). congruence.
Qed.

(** The contract of the index: after the words of a list are inserted
    into the empty trie, the lookup of a prefix gives the words of the
    list that start with it. *)
Lemma elem_of_trie_of_list ws (prefix x : string) :
  x ∈ Trie.get_words_that_start_with (foldl Trie.insert Trie.empty ws) prefix
  <-> x ∈ ws /\ startswith x prefix = true.
Proof.
  rewrite elem_of_get_words_that_start_with
    by apply trie_wf_foldl_insert, trie_wf_empty.
  rewrite trie_holds_foldl_insert. split.
  - intros [[Hh|(w & Hw & Heq)] Hs]; [by apply trie_holds_empty in Hh|].
    apply chars_inj in Heq as ->. done.
  - intros [Hx Hs]. split; [|done]. right. by exists x.
Qed.
End trie.

(** ** Narrowing by the tries *)

Section narrowing.
Implicit Types (self : RandomWord.t) (words : gset string)
  (w s : string) (l : list string).

Lemma chars_reversed s : chars (reversed s) = reverse (chars s).
Proof. unfold reversed. apply chars_str. Qed.

Lemma reversed_involutive s : reversed (reversed s) = s.
Proof.
  unfold reversed. by rewrite chars_str, reverse_involutive, str_chars.
Qed.

Lemma startswith_reversed w s :
  startswith (reversed w) (reversed s) = endswith w s.
Proof.
  unfold startswith, endswith. rewrite !chars_reversed.
  apply bool_decide_ext. symmetry. apply suffix_prefix_reverse.
Qed.

(** The two tries of the constructor: the words of the categories, and
    their reversals. *)
Lemma build_tries_eq (categories : gmap string (list string)) :
  RandomWord.build_tries categories
  = (foldl Trie.insert Trie.empty (all_words categories),
     foldl Trie.insert Trie.empty (reversed <$> all_words categories)).
Proof.
  unfold RandomWord.build_tries, all_words.
  generalize (map_to_list categories). generalize Trie.empty at 1 3.
  generalize Trie.empty. intros t1 t0 kvs. revert t0 t1.
  induction kvs as [|[k l] kvs IH]; intros t0 t1; simpl; [done|].
  rewrite fmap_app, !foldl_app, <- IH. f_equal.
  clear. revert t0 t1.
  induction l as [|w l IHl]; intros t0 t1; simpl; [done|]. apply IHl.
Qed.

Lemma elem_of_all_words (categories : gmap string (list string)) w :
  w ∈ all_words categories
  <-> exists k l, categories !! k = Some l /\ w ∈ l.
Proof.
  unfold all_words. rewrite list_elem_of_join. split.
  - intros (l & Hw & Hl). apply list_elem_of_fmap in Hl as ([k l'] & -> & Hkl).
    apply elem_of_map_to_list in Hkl. by exists k, l'.
  - intros (k & l & Hk & Hw). exists l. split; [done|].
    apply list_elem_of_fmap. exists (k, l). split; [done|].
    by apply elem_of_map_to_list.
Qed.

Lemma selected_all_words self lo hi (cats : list string) w :
  w ∈ selected self lo hi cats -> w ∈ all_words (RandomWord._categories self).
Proof.
  rewrite elem_of_selected, elem_of_all_words.
  intros (c & l & _ & Hl & Hw & _). by exists c, l.
Qed.

(** On an engine without tries nothing is narrowed. *)
Lemma narrow_plain self sw ew words :
  RandomWord._tries self = None ->
  RandomWord.narrow_by_tries self sw ew words = (words, ew).
Proof. intros Ht. unfold RandomWord.narrow_by_tries. by rewrite Ht. Qed.

(** On an engine with the tries of its categories, the intersections
    keep the candidates that start with [starts_with] and end with
    [ends_with]. *)
Lemma narrow_indexed self sw ew words :
  RandomWord._tries self
  = Some (RandomWord.build_tries (RandomWord._categories self)) ->
  (forall w, w ∈ words -> w ∈ all_words (RandomWord._categories self)) ->
  (RandomWord.narrow_by_tries self sw ew words).1
  = filter (fun w => affixes_ok sw ew w = true) words.
Proof.
  intros Ht Hsub. unfold RandomWord.narrow_by_tries.
  rewrite Ht, build_tries_eq.
  assert (forall w, w ∈ words ->
            (w ∈ Trie.get_words_that_start_with
                   (foldl Trie.insert Trie.empty
                      (all_words (RandomWord._categories self))) sw
             <-> startswith w sw = true)) as Hsw.
  { intros w Hw. rewrite elem_of_trie_of_list. split; [tauto|].
    intros ?. split; [by apply Hsub|done]. }
  assert (forall w, w ∈ words ->
            (w ∈ set_map (D := gset string) reversed
                   (Trie.get_words_that_start_with
                      (foldl Trie.insert Trie.empty
                         (reversed <$> all_words (RandomWord._categories self)))
                      (reversed ew))
             <-> endswith w ew = true)) as Hew.
  { intros w Hw. rewrite elem_of_map. split.
    - intros (y & -> & Hy). apply elem_of_trie_of_list in Hy as [_ Hy].
      by rewrite <- startswith_reversed, reversed_involutive.
    - intros He. exists (reversed w). split; [by rewrite reversed_involutive|].
      apply elem_of_trie_of_list. split.
      + apply list_elem_of_fmap. exists w. split; [done|by apply Hsub].
      + by rewrite startswith_reversed. }
  unfold affixes_ok.
  destruct (nonempty sw) eqn:Hnsw, (nonempty ew) eqn:Hnew; cbn [fst];
    try (apply nonempty_false in Hnsw as ->);
    try (apply nonempty_false in Hnew as ->);
    apply set_eq; intros w;
    rewrite elem_of_filter, ?elem_of_intersection, andb_true_iff,
      ?startswith_empty, ?endswith_empty;
    split.
  - intros [[Hw H1] H2]. by rewrite <- Hsw, <- Hew.
  - intros [[H1 H2] Hw]. by rewrite Hsw, Hew.
  - intros [Hw H1]. by rewrite <- Hsw.
  - intros [[H1 _] Hw]. by rewrite Hsw.
  - intros [Hw H2]. by rewrite <- Hew.
  - intros [[_ H2] Hw]. by rewrite Hew.
  - tauto.
  - tauto.
Qed.

End narrowing.

Section index_equivalence.
Context (re_fullmatch : matcher).
Implicit Types (self plain indexed : RandomWord.t) (words : gset string).

Lemma matched_no_pattern (w : string) :
  matched re_fullmatch None w = Some true.
Proof. reflexivity. Qed.

End index_equivalence.

(** ** Engines with and without the tries *)




(** ** More on the bisection and the length slice *)

(** On a list sorted by length, [_bisect_by_length] returns the index of
    the first word that is not shorter than [target_length]: every word
    before it is shorter, no word from it on is, and it is the length of
    the list when every word is shorter. *)
Theorem bisect_by_length_first (words : list string) (target_length : Z) :
  sorted_by_len words ->
  exists i : nat,
    RandomWord._bisect_by_length words target_length = Ok (Z.of_nat i)
    /\ (i <= length words)%nat
    /\ Forall (fun w => len w < target_length) (take i words)
    /\ Forall (fun w => target_length <= len w) (drop i words).
Proof.
  intros Hs. exists (shorter target_length words).
  split; [by apply bisect_by_length_shorter|].
  split; [apply shorter_le_length|].
  rewrite sorted_take_shorter, sorted_drop_shorter by done.
  split; apply Forall_forall; intros w [Hw _]%list_elem_of_filter; lia.
Qed.

Lemma bisect_by_length_first_witness :
  exists i : nat,
    RandomWord._bisect_by_length ["a"; "bb"; "cc"; "ddd"; "eeeee"] 3
    = Ok (Z.of_nat i)
    /\ (i <= 5)%nat
    /\ Forall (fun w => len w < 3) (take i ["a"; "bb"; "cc"; "ddd"; "eeeee"])
    /\ Forall (fun w => 3 <= len w) (drop i ["a"; "bb"; "cc"; "ddd"; "eeeee"]).
Proof.
  apply (bisect_by_length_first ["a"; "bb"; "cc"; "ddd"; "eeeee"] 3).
  unfold sorted_by_len. repeat constructor; vm_compute; discriminate.
Defined.

(** On every list, sorted or not, and for every target, the search
    returns an index between 0 and the length of the list: the word it
    reads at [middle] is always in range, so no [IndexError] escapes. *)
Theorem bisect_by_length_in_range (words : list string) (target_length : Z) :
  exists k,
    RandomWord._bisect_by_length words target_length = Ok k
    /\ 0 <= k <= Z.of_nat (length words).
Proof.
  destruct (bisect_loop_returns words target_length 0
              (Z.of_nat (length words) - 1)) as (k & Hk & Hr); [lia..|].
  exists k. split; [done|lia].
Qed.

(** On every list and for all bounds, [_get_words_of_length] returns a
    run of consecutive words of the list, in their order; inverted
    bounds and unsorted lists raise nothing. *)
Theorem get_words_of_length_run (word_list : list string)
    (min_length max_length : option Z) :
  exists (i n : nat),
    RandomWord._get_words_of_length word_list min_length max_length
    = Ok (take n (drop i word_list)).
Proof.
  unfold RandomWord._get_words_of_length.
  destruct min_length as [lo|], max_length as [hi|]; simpl;
    repeat match goal with
      | |- context [RandomWord._bisect_by_length word_list ?t] =>
          destruct (bisect_by_length_returns word_list t) as [? ->]; simpl
      end; unfold py_slice; eauto.
Qed.

(** ** What [filter] returns on an engine without tries *)

Section filter_plain.
Context (re_fullmatch : matcher).
Implicit Types (self : RandomWord.t) (words : gset string).

Lemma known_or_unknown self (cats : list string) :
  Forall (fun k => is_Some (RandomWord._categories self !! k)) cats
  \/ Exists (fun c => RandomWord._categories self !! c = None) cats.
Proof.
  destruct (decide (Exists (fun c => RandomWord._categories self !! c = None)
                      cats)) as [Hex|Hall]; [by right|left].
  apply Forall_forall. intros c Hin.
  destruct (RandomWord._categories self !! c) eqn:Hc; [done|].
  exfalso. apply Hall, Exists_exists. eauto.
Qed.

Lemma filter_words_unknown self sw ew (cats : list string) lo hi rx ews :
  Exists (fun c => RandomWord._categories self !! c = None) cats ->
  exists c, filter_words re_fullmatch self sw ew cats lo hi rx ews
            = Raise (invalid_category c).
Proof.
  intros Hex.
  destruct (first_unknown self cats Hex) as (known & c & rest & -> & Hk & Hc).
  exists c. unfold filter_words.
  by rewrite (for_each_unknown_category self _ _ known rest c).
Qed.

(** The loop keeps the candidates that pass every test, and raises when
    [re.fullmatch] does on a candidate. *)
Lemma filter_words_plain self sw ew (cats : list string) lo hi rx ews :
  sorted_categories self ->
  RandomWord._tries self = None ->
  Forall (fun k => is_Some (RandomWord._categories self !! k)) cats ->
  filter_words re_fullmatch self sw ew cats lo hi rx ews
  = if decide (set_Forall (fun w => matched re_fullmatch rx w <> None)
                 (selected self lo hi cats))
    then Ok (elements (passing re_fullmatch sw ew rx ews
                         (selected self lo hi cats)))
    else Raise (ReError (default "" rx)).
Proof.
  intros Hs Ht Hk. rewrite filter_words_spec by done. cbn zeta.
  rewrite narrow_plain by done. cbn [fst snd].
  assert (forall w,
            verdict re_fullmatch
              (RandomWord.collect_operations self sw ew rx ews) w
            = (fun m => negb (m && spaces_ok ews w && affixes_ok sw ew w))
                <$> matched re_fullmatch rx w) as Hv
    by (intros w; by apply verdict_plain).
  destruct (decide (set_Forall (fun w => matched re_fullmatch rx w <> None)
                      (selected self lo hi cats))) as [Hok|Hraise].
  - rewrite decide_True.
    2:{ intros w Hw. specialize (Hok w Hw). cbv beta in Hok |- *.
        rewrite Hv. by destruct (matched re_fullmatch rx w). }
    do 2 f_equal. unfold passing. apply set_eq. intros w.
    rewrite !elem_of_filter, Hv.
    destruct (matched re_fullmatch rx w) as [[]|]; simpl;
      destruct (spaces_ok ews w), (affixes_ok sw ew w); simpl;
      naive_solver.
  - rewrite decide_False; [done|].
    intros Hok. apply Hraise. intros w Hw. specialize (Hok w Hw).
    cbv beta in Hok |- *. rewrite Hv in Hok.
    by destruct (matched re_fullmatch rx w).
Qed.

Lemma elem_of_passing sw ew rx ews words (w : string) :
  w ∈ passing re_fullmatch sw ew rx ews words
  <-> w ∈ words
      /\ startswith w sw = true /\ endswith w ew = true
      /\ matched re_fullmatch rx w = Some true
      /\ (ews = true -> has_space w = false).
Proof.
  unfold passing, spaces_ok, affixes_ok. rewrite elem_of_filter.
  rewrite andb_true_iff, negb_true_iff, andb_false_iff.
  destruct ews, (has_space w); naive_solver.
Qed.

Lemma selected_same_names self lo hi (cats cats' : list string) :
  (forall c, c ∈ cats <-> c ∈ cats') ->
  selected self lo hi cats = selected self lo hi cats'.
Proof.
  intros Hsame. apply set_eq. intros w. rewrite !elem_of_selected.
  split; intros (c & l & Hc & H); exists c, l; split; try done;
    by apply Hsame.
Qed.
End filter_plain.

(** Whenever [filter] returns on an engine built without the tries, it
    returns, without repetition, exactly the words that belong to one of
    the categories gone through, whose length lies within the validated
    bounds, that start with [starts_with], end with [ends_with], fully
    match [regex] when one is given, and hold no space when
    [exclude_with_spaces] is set. *)
Theorem filter_returns_exactly (re_fullmatch : matcher)
    (_default_categories : Defaults -> list string)
    (kwargs : list (string * category_source))
    (starts_with ends_with : string)
    (include_categories include_parts_of_speech : option (list string))
    (word_min_length word_max_length : pyarg)
    (regex : option string) (exclude_with_spaces : bool)
    (pool : list string) :
  RandomWord.filter re_fullmatch
    (RandomWord.__init__ _default_categories false kwargs)
    starts_with ends_with include_categories include_parts_of_speech
    word_min_length word_max_length regex exclude_with_spaces = Ok pool ->
  exists lo hi,
    RandomWord._validate_lengths word_min_length word_max_length = Ok (lo, hi)
    /\ NoDup pool
    /\ forall w,
         w ∈ pool
         <-> (exists category word_list,
                category ∈ RandomWord.resolve_categories
                             (RandomWord.__init__ _default_categories false
                                kwargs)
                             include_categories include_parts_of_speech
                /\ RandomWord._categories
                     (RandomWord.__init__ _default_categories false kwargs)
                   !! category = Some word_list
                /\ w ∈ word_list)
             /\ within lo hi (len w)
             /\ startswith w starts_with = true
             /\ endswith w ends_with = true
             /\ matched re_fullmatch regex w = Some true
             /\ (exclude_with_spaces = true -> has_space w = false).
Proof.
  intros Hf. rewrite filter_stages in Hf.
  destruct (RandomWord._validate_lengths word_min_length word_max_length)
    as [[lo hi]|e]; [|done].
  exists lo, hi. split; [done|]. cbn [mbind result_bind fst snd] in Hf.
  set (self := RandomWord.__init__ _default_categories false kwargs) in *.
  set (cats := RandomWord.resolve_categories self include_categories
                 include_parts_of_speech) in *.
  destruct (known_or_unknown self cats) as [Hk|Hex].
  2:{ destruct (filter_words_unknown re_fullmatch self starts_with ends_with
                  cats lo hi regex exclude_with_spaces Hex) as [c Hc].
      congruence. }
  rewrite filter_words_plain in Hf; [|apply init_sorted|done|done].
  destruct (decide (set_Forall _ _)); [|done]. injection Hf as <-.
  split; [apply NoDup_elements|].
  intros w. rewrite elem_of_elements, elem_of_passing, elem_of_selected.
  naive_solver.
Qed.

Lemma filter_returns_exactly_witness :
  exists lo hi,
    RandomWord._validate_lengths (PyInt 3) PyNone = Ok (lo, hi)
    /\ NoDup ["ant"; "apple"]
    /\ forall w,
         w ∈ ["ant"; "apple"]
         <-> (exists category word_list,
                category ∈ RandomWord.resolve_categories
                             (RandomWord.__init__ no_defaults false
                                example_kwargs)
                             (Some ["noun"]) None
                /\ RandomWord._categories
                     (RandomWord.__init__ no_defaults false example_kwargs)
                   !! category = Some word_list
                /\ w ∈ word_list)
             /\ within lo hi (len w)
             /\ startswith w "a" = true
             /\ endswith w "" = true
             /\ matched Fragment.fragment_fullmatch None w = Some true
             /\ (false = true -> has_space w = false).
Proof.
  apply (filter_returns_exactly Fragment.fragment_fullmatch no_defaults
           example_kwargs "a" "" (Some ["noun"]) None (PyInt 3) PyNone
           None false ["ant"; "apple"]).
  vm_compute. reflexivity.
Defined.

(** When [filter] returns on an engine built without the tries: exactly
    when the bounds pass the validation, every category gone through is
    one of the engine, and [re.fullmatch] raises on none of the words
    that the categories and the bounds select (the prefix, the suffix
    and the spaces play no part in this). *)
Theorem filter_returns_iff (re_fullmatch : matcher)
    (_default_categories : Defaults -> list string)
    (kwargs : list (string * category_source))
    (starts_with ends_with : string)
    (include_categories include_parts_of_speech : option (list string))
    (word_min_length word_max_length : pyarg)
    (regex : option string) (exclude_with_spaces : bool) :
  (exists pool,
     RandomWord.filter re_fullmatch
       (RandomWord.__init__ _default_categories false kwargs)
       starts_with ends_with include_categories include_parts_of_speech
       word_min_length word_max_length regex exclude_with_spaces = Ok pool)
  <-> exists lo hi,
        RandomWord._validate_lengths word_min_length word_max_length
        = Ok (lo, hi)
        /\ Forall (fun category =>
                     is_Some (RandomWord._categories
                                (RandomWord.__init__ _default_categories false
                                   kwargs) !! category))
             (RandomWord.resolve_categories
                (RandomWord.__init__ _default_categories false kwargs)
                include_categories include_parts_of_speech)
        /\ forall w,
             w ∈ selected
                   (RandomWord.__init__ _default_categories false kwargs)
                   lo hi
                   (RandomWord.resolve_categories
                      (RandomWord.__init__ _default_categories false kwargs)
                      include_categories include_parts_of_speech) ->
             matched re_fullmatch regex w <> None.
Proof.
  rewrite filter_stages.
  set (self := RandomWord.__init__ _default_categories false kwargs).
  set (cats := RandomWord.resolve_categories self include_categories
                 include_parts_of_speech).
  destruct (RandomWord._validate_lengths word_min_length word_max_length)
    as [[lo hi]|e]; cbn [mbind result_bind fst snd].
  2:{ split; [by intros [? ?]|by intros (? & ? & ? & _)]. }
  destruct (known_or_unknown self cats) as [Hk|Hex].
  - rewrite filter_words_plain; [|apply init_sorted|done|done].
    destruct (decide (set_Forall _ _)) as [Hok|Hraise].
    + split; [|by eauto]. intros _. exists lo, hi. done.
    + split; [by intros [? ?]|].
      intros (lo' & hi' & [= <- <-] & _ & Hok). done.
  - destruct (filter_words_unknown re_fullmatch self starts_with ends_with
                cats lo hi regex exclude_with_spaces Hex) as [c ->].
    split; [by intros [? ?]|].
    intros (lo' & hi' & _ & Hk & _). exfalso.
    apply Exists_exists in Hex as (c' & Hin & Hnone).
    rewrite Forall_forall in Hk. specialize (Hk c' Hin).
    rewrite Hnone in Hk. by destruct Hk.
Qed.

(** The categories of a call are gone through as a set: in the model the
    two calls below run on the same candidates. *)
Lemma filter_same_names (re_fullmatch : matcher)
    (_default_categories : Defaults -> list string)
    (enhanced_prefixes : bool)
    (kwargs : list (string * category_source))
    (starts_with ends_with : string)
    (categories categories' : list string)
    (include_parts_of_speech : option (list string))
    (word_min_length word_max_length : pyarg)
    (regex : option string) (exclude_with_spaces : bool) :
  (forall c, c ∈ categories <-> c ∈ categories') ->
  Forall (fun category =>
            is_Some (RandomWord._categories
                       (RandomWord.__init__ _default_categories
                          enhanced_prefixes kwargs) !! category))
    categories ->
  RandomWord.filter re_fullmatch
    (RandomWord.__init__ _default_categories enhanced_prefixes kwargs)
    starts_with ends_with (Some categories) include_parts_of_speech
    word_min_length word_max_length regex exclude_with_spaces
  = RandomWord.filter re_fullmatch
      (RandomWord.__init__ _default_categories enhanced_prefixes kwargs)
      starts_with ends_with (Some categories') include_parts_of_speech
      word_min_length word_max_length regex exclude_with_spaces.
Proof.
  intros Hsame Hk. rewrite !filter_stages.
  destruct (RandomWord._validate_lengths word_min_length word_max_length)
    as [[lo hi]|e]; [|done].
  cbn [mbind result_bind fst snd].
  destruct categories as [|c cats], categories' as [|c' cats'].
  - done.
  - exfalso. by apply (elem_of_nil c'), Hsame; left.
  - exfalso. by apply (elem_of_nil c), Hsame; left.
  - unfold RandomWord.resolve_categories. cbn [some_items default].
    assert (Forall (fun category =>
                      is_Some (RandomWord._categories
                                 (RandomWord.__init__ _default_categories
                                    enhanced_prefixes kwargs) !! category))
              (c' :: cats')) as Hk'.
    { rewrite Forall_forall in Hk |- *. intros x Hx. by apply Hk, Hsame. }
    unfold filter_words.
    rewrite !select_known by (done || apply init_sorted).
    by rewrite (selected_same_names _ _ _ (c :: cats) (c' :: cats')).
Qed.

(** On an engine built by the constructor, the list of categories is
    used as a set: when every name of it is a category of the engine, the
    order of the names and their repetitions change nothing of the
    outcome but, at most, the order of the list returned.  Where one
    call returns, the other returns the same words (a permutation of the
    list, which has no repetition); where one raises, the other raises
    the same error. *)
Theorem filter_categories_as_set (re_fullmatch : matcher)
    (_default_categories : Defaults -> list string)
    (enhanced_prefixes : bool)
    (kwargs : list (string * category_source))
    (starts_with ends_with : string)
    (categories categories' : list string)
    (include_parts_of_speech : option (list string))
    (word_min_length word_max_length : pyarg)
    (regex : option string) (exclude_with_spaces : bool) :
  (forall c, c ∈ categories <-> c ∈ categories') ->
  Forall (fun category =>
            is_Some (RandomWord._categories
                       (RandomWord.__init__ _default_categories
                          enhanced_prefixes kwargs) !! category))
    categories ->
  (forall pool,
     RandomWord.filter re_fullmatch
       (RandomWord.__init__ _default_categories enhanced_prefixes kwargs)
       starts_with ends_with (Some categories) include_parts_of_speech
       word_min_length word_max_length regex exclude_with_spaces = Ok pool ->
     exists pool',
       RandomWord.filter re_fullmatch
         (RandomWord.__init__ _default_categories enhanced_prefixes kwargs)
         starts_with ends_with (Some categories') include_parts_of_speech
         word_min_length word_max_length regex exclude_with_spaces = Ok pool'
       /\ pool' ≡ₚ pool /\ NoDup pool')
  /\ (forall e,
        RandomWord.filter re_fullmatch
          (RandomWord.__init__ _default_categories enhanced_prefixes kwargs)
          starts_with ends_with (Some categories) include_parts_of_speech
          word_min_length word_max_length regex exclude_with_spaces = Raise e ->
        RandomWord.filter re_fullmatch
          (RandomWord.__init__ _default_categories enhanced_prefixes kwargs)
          starts_with ends_with (Some categories') include_parts_of_speech
          word_min_length word_max_length regex exclude_with_spaces
        = Raise e).
Proof.
  intros Hsame Hk.
  rewrite <- (filter_same_names re_fullmatch _default_categories
                enhanced_prefixes kwargs starts_with ends_with categories
                categories') by done.
  split; [|done].
  intros pool Hf. exists pool. split; [done|]. split; [done|].
  by eapply filter_NoDup.
Qed.

Lemma filter_categories_as_set_witness :
  exists pool',
    RandomWord.filter Fragment.fragment_fullmatch
      (RandomWord.__init__ no_defaults true example_kwargs)
      "a" "" (Some ["adjective"; "noun"]) None
      PyNone (PyInt 5) (Some "a.*") true = Ok pool'
    /\ pool' ≡ₚ ["angry"; "ant"; "apple"] /\ NoDup pool'.
Proof.
  apply (proj1 (filter_categories_as_set Fragment.fragment_fullmatch
                  no_defaults true example_kwargs "a" ""
                  ["noun"; "adjective"; "noun"] ["adjective"; "noun"] None
                  PyNone (PyInt 5) (Some "a.*") true
                  ltac:(intros c; rewrite !elem_of_cons, !elem_of_nil; tauto)
                  ltac:(repeat constructor; vm_compute; eauto))).
  vm_compute. reflexivity.
Defined.

(** A list of [include_categories] with at least one name is the one
    gone through: [include_parts_of_speech] is then not looked at, be it
    a list of unknown names. *)
Theorem filter_include_categories_first (re_fullmatch : matcher)
    (self : RandomWord.t) (starts_with ends_with : string)
    (categories : list string)
    (include_parts_of_speech : option (list string))
    (word_min_length word_max_length : pyarg)
    (regex : option string) (exclude_with_spaces : bool) :
  categories <> [] ->
  RandomWord.filter re_fullmatch self starts_with ends_with
    (Some categories) include_parts_of_speech
    word_min_length word_max_length regex exclude_with_spaces
  = RandomWord.filter re_fullmatch self starts_with ends_with
      (Some categories) None
      word_min_length word_max_length regex exclude_with_spaces.
Proof.
  intros Hne. rewrite !filter_stages.
  unfold RandomWord.resolve_categories.
  by destruct categories.
Qed.

Lemma filter_include_categories_first_witness :
  RandomWord.filter Fragment.fragment_fullmatch
    (RandomWord.__init__ no_defaults false example_kwargs)
    "" "" (Some ["noun"]) (Some ["adverb"]) PyNone PyNone None false
  = RandomWord.filter Fragment.fragment_fullmatch
      (RandomWord.__init__ no_defaults false example_kwargs)
      "" "" (Some ["noun"]) None PyNone PyNone None false.
Proof.
  apply (filter_include_categories_first Fragment.fragment_fullmatch
           (RandomWord.__init__ no_defaults false example_kwargs)
           "" "" ["noun"] (Some ["adverb"]) PyNone PyNone None false).
  discriminate.
Defined.

(** ** More on the constructor *)

Section custom_categories.
Context (_default_categories : Defaults -> list string).
Implicit Types (kwargs : list (string * category_source)) (name : string).

Lemma custom_categories_foldl kwargs (out : gmap string (list string)) :
  foldl (fun out '(name, words) =>
           let word_list :=
             match words with
             | Default d => _default_categories d
             | Words l => l
             end in
           <[name := sort_by_len word_list]> out)
        out kwargs
  = foldl (fun out (kv : string * category_source) =>
             <[kv.1 := sort_by_len (source_words _default_categories kv.2)]>
               out)
          out kwargs.
Proof.
  revert out. induction kwargs as [|[name words] kwargs IH]; intros out;
    simpl; [done|].
  rewrite IH. by destruct words.
Qed.

Lemma custom_categories_other kwargs name
    (out : gmap string (list string)) :
  name ∉ kwargs.*1 ->
  foldl (fun out (kv : string * category_source) =>
           <[kv.1 := sort_by_len (source_words _default_categories kv.2)]>
             out)
        out kwargs !! name
  = out !! name.
Proof.
  revert out. induction kwargs as [|[name' words] kwargs IH]; intros out Hn;
    simpl; [done|].
  apply not_elem_of_cons in Hn as [Hne Hn].
  rewrite IH by done. by rewrite lookup_insert_ne.
Qed.

Lemma custom_categories_lookup kwargs name (words : category_source) :
  NoDup kwargs.*1 -> (name, words) ∈ kwargs ->
  RandomWord._custom_categories _default_categories kwargs !! name
  = Some (sort_by_len (source_words _default_categories words)).
Proof.
  unfold RandomWord._custom_categories. rewrite custom_categories_foldl.
  generalize (∅ : gmap string (list string)).
  induction kwargs as [|[name' words'] kwargs IH]; intros out Hnd Hin.
  - by apply elem_of_nil in Hin.
  - apply NoDup_cons in Hnd as [Hnotin Hnd].
    apply elem_of_cons in Hin as [[= <- <-]|Hin]; simpl.
    + rewrite custom_categories_other by done.
      by rewrite lookup_insert_eq.
    + by apply IH.
Qed.

Lemma custom_categories_dom kwargs name :
  is_Some (RandomWord._custom_categories _default_categories kwargs !! name)
  <-> name ∈ kwargs.*1.
Proof.
  unfold RandomWord._custom_categories. rewrite custom_categories_foldl.
  assert (forall out : gmap string (list string),
            is_Some (foldl (fun out (kv : string * category_source) =>
                              <[kv.1 := sort_by_len
                                          (source_words _default_categories
                                             kv.2)]> out)
                           out kwargs !! name)
            <-> is_Some (out !! name) \/ name ∈ kwargs.*1) as Hgen.
  { induction kwargs as [|[name' words'] kwargs IH]; intros out; simpl.
    - rewrite elem_of_nil. tauto.
    - rewrite IH, elem_of_cons. 
      destruct (decide (name = name')) as [->|Hne].
      + rewrite lookup_insert_eq. split; [intros _; right; by left|].
        intros _. left. done.
      + rewrite lookup_insert_ne by done. tauto. }
  rewrite Hgen, lookup_empty. split; [intros [[? [=]]|?]; done|tauto].
Qed.
End custom_categories.

(** [_custom_categories] stores each word list sorted by length: the
    category holds the words of the argument (of the bundled list for a
    member of [Defaults]), each as often as given, in ascending length,
    and the words of one length keep the order they had (the sort is
    stable). *)
Theorem custom_categories_entry
    (_default_categories : Defaults -> list string)
    (kwargs : list (string * category_source))
    (name : string) (words : category_source) :
  NoDup kwargs.*1 -> (name, words) ∈ kwargs ->
  exists word_list,
    RandomWord._custom_categories _default_categories kwargs !! name
    = Some word_list
    /\ sorted_by_len word_list
    /\ word_list ≡ₚ source_words _default_categories words
    /\ forall n,
         filter (fun w => len w = n) word_list
         = filter (fun w => len w = n)
             (source_words _default_categories words).
Proof.
  intros Hnd Hin. eexists. split; [by apply custom_categories_lookup|].
  split; [apply sort_by_len_sorted|].
  split; [apply sort_by_len_Permutation|].
  intros n. apply sort_by_len_stable.
Qed.

Lemma custom_categories_entry_witness :
  exists word_list,
    RandomWord._custom_categories no_defaults example_kwargs !! "noun"
    = Some word_list
    /\ sorted_by_len word_list
    /\ word_list ≡ₚ ["apple"; "ant"; "orange"]
    /\ forall n,
         filter (fun w => len w = n) word_list
         = filter (fun w => len w = n) ["apple"; "ant"; "orange"].
Proof.
  apply (custom_categories_entry no_defaults example_kwargs "noun"
           (Words ["apple"; "ant"; "orange"])).
  - apply (bool_decide_unpack _). vm_compute. exact I.
  - unfold example_kwargs. by left.
Defined.

(** The categories of an engine are the names of the keyword arguments,
    whether or not the tries are built; without keyword arguments they
    are the three parts of speech and their plurals, the profanities
    being left out. *)
Theorem init_known_categories
    (_default_categories : Defaults -> list string)
    (enhanced_prefixes : bool)
    (kwargs : list (string * category_source)) (name : string) :
  (kwargs <> [] ->
   is_Some (RandomWord._categories
              (RandomWord.__init__ _default_categories enhanced_prefixes
                 kwargs) !! name)
   <-> name ∈ kwargs.*1)
  /\ (is_Some (RandomWord._categories
                 (RandomWord.__init__ _default_categories enhanced_prefixes
                    []) !! name)
      <-> name ∈ ["noun"; "verb"; "adjective";
                  "nouns"; "verbs"; "adjectives"]).
Proof.
  unfold RandomWord.__init__. simpl. split.
  - intros Hne. destruct kwargs as [|kv kwargs]; [done|].
    apply custom_categories_dom.
  - apply custom_categories_dom.
Qed.

Lemma init_known_categories_witness :
  is_Some (RandomWord._categories
             (RandomWord.__init__ no_defaults true example_kwargs)
           !! "adjective")
  <-> "adjective" ∈ example_kwargs.*1.
Proof.
  apply (init_known_categories no_defaults true example_kwargs "adjective").
  discriminate.
Defined.

(** The constructor keeps what the bisection needs: every category of
    every engine it builds is sorted by length, so that the length slice
    of a category of the engine is exactly its words within the bounds. *)
Theorem init_categories_sliceable
    (_default_categories : Defaults -> list string)
    (enhanced_prefixes : bool)
    (kwargs : list (string * category_source))
    (category : string) (word_list : list string)
    (min_length max_length : option Z) :
  RandomWord._categories
    (RandomWord.__init__ _default_categories enhanced_prefixes kwargs)
  !! category = Some word_list ->
  sorted_by_len word_list
  /\ RandomWord._get_words_of_length word_list min_length max_length
     = Ok (filter (fun w => within min_length max_length (len w)) word_list).
Proof.
  intros Hc.
  assert (sorted_by_len word_list) as Hs
    by apply (init_sorted _default_categories enhanced_prefixes kwargs
                category word_list Hc).
  split; [done|]. by apply get_words_of_length_sorted.
Qed.

Lemma init_categories_sliceable_witness :
  sorted_by_len ["ant"; "apple"; "orange"]
  /\ RandomWord._get_words_of_length ["ant"; "apple"; "orange"]
       (Some 4) (Some 5)
     = Ok (filter (fun w => within (Some 4) (Some 5) (len w))
             ["ant"; "apple"; "orange"]).
Proof.
  apply (init_categories_sliceable no_defaults true example_kwargs "noun"
           ["ant"; "apple"; "orange"] (Some 4) (Some 5)).
  vm_compute. reflexivity.
Defined.

(** ** More on the sampling *)

(** An amount of zero or below asks for nothing: when [filter] returns,
    [random_words] returns the empty list without drawing, and raises
    nothing, also for a negative amount. *)
Theorem random_words_nonpositive (re_fullmatch : matcher)
    (self : RandomWord.t) (g : rng) (amount : Z)
    (starts_with ends_with : string)
    (include_categories include_parts_of_speech : option (list string))
    (word_min_length word_max_length : pyarg)
    (regex : option string) (exclude_with_spaces : bool)
    (pool : list string) :
  RandomWord.filter re_fullmatch self starts_with ends_with
    include_categories include_parts_of_speech
    word_min_length word_max_length regex exclude_with_spaces = Ok pool ->
  amount <= 0 ->
  RandomWord.random_words re_fullmatch self g amount starts_with ends_with
    include_categories include_parts_of_speech
    word_min_length word_max_length regex false exclude_with_spaces
  = Ok ([], g).
Proof.
  intros Hf Hle.
  rewrite (random_words_filtered _ _ _ _ _ _ _ _ _ _ _ _ _ _ Hf). simpl.
  rewrite (proj2 (Z.ltb_ge _ _)) by lia.
  by replace (Z.to_nat amount) with 0%nat by lia.
Qed.

Lemma random_words_nonpositive_witness :
  RandomWord.random_words Fragment.fragment_fullmatch
    (RandomWord.__init__ no_defaults false example_kwargs) example_rng (-2)
    "" "" (Some ["adjective"]) None PyNone PyNone None false false
  = Ok ([], example_rng).
Proof.
  apply (random_words_nonpositive Fragment.fragment_fullmatch
           (RandomWord.__init__ no_defaults false example_kwargs) example_rng
           (-2) "" "" (Some ["adjective"]) None PyNone PyNone None false
           ["angry"; "red"]).
  - vm_compute. reflexivity.
  - lia.
Defined.

(** [word] returns one of the words [filter] returns, whenever there is
    one: the index [[0]] never fails. *)
Theorem word_returns_member (re_fullmatch : matcher)
    (self : RandomWord.t) (g : rng)
    (starts_with ends_with : string)
    (include_categories include_parts_of_speech : option (list string))
    (word_min_length word_max_length : pyarg)
    (regex : option string) (exclude_with_spaces : bool)
    (pool : list string) :
  RandomWord.filter re_fullmatch self starts_with ends_with
    include_categories include_parts_of_speech
    word_min_length word_max_length regex exclude_with_spaces = Ok pool ->
  pool <> [] ->
  exists w g',
    RandomWord.word re_fullmatch self g starts_with ends_with
      include_categories include_parts_of_speech
      word_min_length word_max_length regex exclude_with_spaces
    = Ok (w, g')
    /\ w ∈ pool.
Proof.
  intros Hf Hne. unfold RandomWord.word.
  rewrite (random_words_filtered _ _ _ _ _ _ _ _ _ _ _ _ _ _ Hf).
  cbn [negb andb].
  destruct pool as [|w0 pool]; [done|].
  rewrite (proj2 (Z.ltb_ge _ _)) by (simpl length; lia).
  change (Z.to_nat 1) with 1%nat.
  destruct (draw_returns 1 g (w0 :: pool) [])
    as (taken & rest & g' & Hd & Hlen & Hp); [simpl; lia|].
  rewrite Hd. destruct taken as [|w [|? ?]]; try done.
  exists w, g'. split; [done|]. rewrite Hp. by left.
Qed.

Lemma word_returns_member_witness :
  exists w g',
    RandomWord.word Fragment.fragment_fullmatch
      (RandomWord.__init__ no_defaults false example_kwargs) example_rng
      "" "" (Some ["adjective"]) None PyNone PyNone None false
    = Ok (w, g')
    /\ w ∈ ["angry"; "red"].
Proof.
  apply (word_returns_member Fragment.fragment_fullmatch
           (RandomWord.__init__ no_defaults false example_kwargs) example_rng
           "" "" (Some ["adjective"]) None PyNone PyNone None false
           ["angry"; "red"]).
  - vm_compute. reflexivity.
  - discriminate.
Defined.

(** [word] when no word fits: [NoWordsToChoseFrom], with the message of
    [random_words] for one word; an error of [filter] passes through
    unchanged. *)
Theorem word_without_words (re_fullmatch : matcher)
    (self : RandomWord.t) (g : rng)
    (starts_with ends_with : string)
    (include_categories include_parts_of_speech : option (list string))
    (word_min_length word_max_length : pyarg)
    (regex : option string) (exclude_with_spaces : bool) :
  (RandomWord.filter re_fullmatch self starts_with ends_with
     include_categories include_parts_of_speech
     word_min_length word_max_length regex exclude_with_spaces = Ok [] ->
   RandomWord.word re_fullmatch self g starts_with ends_with
     include_categories include_parts_of_speech
     word_min_length word_max_length regex exclude_with_spaces
   = Raise (NoWordsToChoseFrom
              "There aren't enough words to choose from. Cannot generate 1 word(s)"))
  /\ (forall e,
        RandomWord.filter re_fullmatch self starts_with ends_with
          include_categories include_parts_of_speech
          word_min_length word_max_length regex exclude_with_spaces
        = Raise e ->
        RandomWord.word re_fullmatch self g starts_with ends_with
          include_categories include_parts_of_speech
          word_min_length word_max_length regex exclude_with_spaces
        = Raise e).
Proof.
  unfold RandomWord.word. split.
  - intros Hf.
    by rewrite (random_words_filtered _ _ _ _ _ _ _ _ _ _ _ _ _ _ Hf).
  - intros e Hf.
    by rewrite (random_words_propagates _ _ _ _ _ _ _ _ _ _ _ _ _ _ Hf).
Qed.

Lemma word_without_words_witness :
  RandomWord.word Fragment.fragment_fullmatch
    (RandomWord.__init__ no_defaults false example_kwargs) example_rng
    "z" "" None None PyNone PyNone None false
  = Raise (NoWordsToChoseFrom
             "There aren't enough words to choose from. Cannot generate 1 word(s)").
Proof.
  apply (proj1 (word_without_words Fragment.fragment_fullmatch
                  (RandomWord.__init__ no_defaults false example_kwargs)
                  example_rng "z" "" None None PyNone PyNone None false)).
  vm_compute. reflexivity.
Defined.

(** ** More on the validation of the bounds *)

(** What [_validate_lengths] returns when it returns: each bound is the
    argument with the negative values dropped, so a returned bound is
    never negative, and a minimum above the maximum is only let through
    when the maximum is 0. *)
Theorem validate_lengths_result (word_min_length word_max_length : pyarg)
    (lo hi : option Z) :
  RandomWord._validate_lengths word_min_length word_max_length = Ok (lo, hi) ->
  lo = drop_negative (RandomWord.as_option word_min_length)
  /\ hi = drop_negative (RandomWord.as_option word_max_length)
  /\ (forall n, lo = Some n -> 0 <= n)
  /\ (forall n, hi = Some n -> 0 <= n)
  /\ (forall n m, lo = Some n -> hi = Some m -> n <= m \/ m = 0).
Proof.
  unfold RandomWord._validate_lengths.
  destruct word_min_length as [|n|], word_max_length as [|m|]; simpl;
    try discriminate.
  - intros [= <- <-]. repeat split; discriminate.
  - destruct (m <? 0) eqn:Hm; simpl; intros [= <- <-];
      repeat split; try discriminate; intros ? [= <-]; lia.
  - destruct (n <? 0) eqn:Hn; simpl; intros [= <- <-];
      repeat split; try discriminate; intros ? [= <-]; lia.
  - destruct ((n >? m) && negb (m =? 0)) eqn:Hinv; simpl; [discriminate|].
    destruct (n <? 0) eqn:Hn, (m <? 0) eqn:Hm; simpl; intros [= <- <-];
      repeat split; try discriminate;
      try (intros ? [= <-]; lia);
      intros ? ? [= <-] [= <-]; lia.
Qed.

Lemma validate_lengths_result_witness :
  None = drop_negative (RandomWord.as_option (PyInt (-7)))
  /\ Some 3 = drop_negative (RandomWord.as_option (PyInt 3))
  /\ (forall n, @None Z = Some n -> 0 <= n)
  /\ (forall n, Some 3 = Some n -> 0 <= n)
  /\ (forall n m, @None Z = Some n -> Some 3 = Some m -> n <= m \/ m = 0).
Proof.
  apply (validate_lengths_result (PyInt (-7)) (PyInt 3) None (Some 3)).
  vm_compute. reflexivity.
Defined.

(** A bound that is neither an [int] nor [None] makes [filter] raise
    [TypeError] before anything else is looked at, whatever the engine
    and the other arguments; [word_min_length] is checked first. *)
Theorem filter_rejects_non_int_bounds (re_fullmatch : matcher)
    (self : RandomWord.t) (starts_with ends_with : string)
    (include_categories include_parts_of_speech : option (list string))
    (word_min_length word_max_length : pyarg)
    (regex : option string) (exclude_with_spaces : bool) :
  RandomWord.filter re_fullmatch self starts_with ends_with
    include_categories include_parts_of_speech
    PyOther word_max_length regex exclude_with_spaces
  = Raise (TypeError "word_min_length must be type int or None")
  /\ (word_min_length <> PyOther ->
      RandomWord.filter re_fullmatch self starts_with ends_with
        include_categories include_parts_of_speech
        word_min_length PyOther regex exclude_with_spaces
      = Raise (TypeError "word_max_length must be type int or None")).
Proof.
  rewrite !filter_stages. split; [done|].
  intros Hmin. by destruct word_min_length.
Qed.

Lemma filter_rejects_non_int_bounds_witness :
  RandomWord.filter Fragment.fragment_fullmatch
    (RandomWord.__init__ no_defaults false example_kwargs)
    "a" "" (Some ["verb"]) None (PyInt 9) PyOther (Some "(") false
  = Raise (TypeError "word_max_length must be type int or None").
Proof.
  apply (filter_rejects_non_int_bounds Fragment.fragment_fullmatch
           (RandomWord.__init__ no_defaults false example_kwargs)
           "a" "" (Some ["verb"]) None (PyInt 9) PyNone (Some "(") false).
  discriminate.
Defined.

(** ** An empty list of categories *)

Section indexed.
Context (re_fullmatch : matcher).
Implicit Types (self : RandomWord.t) (words : gset string).

(** On an engine with the tries of its categories, the loop sees the
    candidates with the right prefix and suffix only, and keeps those
    that pass the other tests. *)
Lemma filter_words_indexed self sw ew (cats : list string) lo hi rx ews :
  sorted_categories self ->
  RandomWord._tries self
  = Some (RandomWord.build_tries (RandomWord._categories self)) ->
  Forall (fun k => is_Some (RandomWord._categories self !! k)) cats ->
  filter_words re_fullmatch self sw ew cats lo hi rx ews
  = if decide (set_Forall (fun w => matched re_fullmatch rx w <> None)
                 (filter (fun w => affixes_ok sw ew w = true)
                    (selected self lo hi cats)))
    then Ok (elements (passing re_fullmatch sw ew rx ews
                         (selected self lo hi cats)))
    else Raise (ReError (default "" rx)).
Proof.
  intros Hs Ht Hk. rewrite filter_words_spec by done. cbn zeta.
  pose proof (narrow_indexed self sw ew (selected self lo hi cats) Ht
                (selected_all_words self lo hi cats)) as Hn.
  destruct (RandomWord.narrow_by_tries self sw ew (selected self lo hi cats))
    as [narrowed ew'].
  cbn [fst snd] in Hn |- *. subst narrowed.
  assert (forall w,
            verdict re_fullmatch
              (RandomWord.collect_operations self sw ew' rx ews) w
            = (fun m => negb (m && spaces_ok ews w))
                <$> matched re_fullmatch rx w) as Hv
    by (intros w; apply verdict_indexed; by rewrite Ht).
  destruct (decide (set_Forall (fun w => matched re_fullmatch rx w <> None)
                      (filter (fun w => affixes_ok sw ew w = true)
                         (selected self lo hi cats)))) as [Hok|Hraise].
  - rewrite decide_True.
    2:{ intros w Hw. specialize (Hok w Hw). cbv beta in Hok |- *.
        rewrite Hv. by destruct (matched re_fullmatch rx w). }
    do 2 f_equal. unfold passing. apply set_eq. intros w.
    rewrite !elem_of_filter, Hv.
    destruct (matched re_fullmatch rx w) as [[]|]; simpl;
      destruct (spaces_ok ews w), (affixes_ok sw ew w); simpl;
      naive_solver.
  - rewrite decide_False; [done|].
    intros Hok. apply Hraise. intros w Hw. specialize (Hok w Hw).
    cbv beta in Hok |- *. rewrite Hv in Hok.
    by destruct (matched re_fullmatch rx w).
Qed.

(** What [filter] returns on an engine of the constructor, with or
    without the tries, once the bounds and the categories are
    settled. *)
Lemma filter_words_returns (_default_categories : Defaults -> list string)
    (enhanced_prefixes : bool) (kwargs : list (string * category_source))
    sw ew (cats : list string) lo hi rx ews (pool : list string) :
  filter_words re_fullmatch
    (RandomWord.__init__ _default_categories enhanced_prefixes kwargs)
    sw ew cats lo hi rx ews = Ok pool ->
  pool = elements
           (passing re_fullmatch sw ew rx ews
              (selected
                 (RandomWord.__init__ _default_categories enhanced_prefixes
                    kwargs) lo hi cats)).
Proof.
  set (self := RandomWord.__init__ _default_categories enhanced_prefixes
                 kwargs).
  intros Hf.
  destruct (known_or_unknown self cats) as [Hk|Hex].
  2:{ destruct (filter_words_unknown re_fullmatch self sw ew cats lo hi rx
                  ews Hex) as [c Hc]. congruence. }
  destruct enhanced_prefixes.
  - rewrite filter_words_indexed in Hf; [|apply init_sorted|done|done].
    destruct (decide (set_Forall _ _)); [|done]. by injection Hf as <-.
  - rewrite filter_words_plain in Hf; [|apply init_sorted|done|done].
    destruct (decide (set_Forall _ _)); [|done]. by injection Hf as <-.
Qed.

Lemma elem_of_keys (m : gmap string (list string)) (c : string) :
  c ∈ (map_to_list m).*1 <-> is_Some (m !! c).
Proof.
  rewrite list_elem_of_fmap. split.
  - intros ([c' l] & -> & Hin). apply elem_of_map_to_list in Hin. by exists l.
  - intros [l Hl]. exists (c, l). split; [done|].
    by apply elem_of_map_to_list.
Qed.
End indexed.

(** C10: an empty [include_categories] is treated like an absent one.
    [filter] called with [include_categories=[]] is [filter] called with
    [include_categories=None], and the categories it goes through are
    those of [include_parts_of_speech] when that list has items, and every
    category of the engine otherwise; it does not go through zero
    categories.  Accordingly, on an engine of the constructor, what such
    a call returns is not the empty set but exactly the words of those
    categories that pass the length bounds and the other tests: with no
    [include_parts_of_speech], every fitting word of every category. *)
Theorem filter_empty_include_categories (re_fullmatch : matcher)
    (self : RandomWord.t) (starts_with ends_with : string)
    (include_parts_of_speech : option (list string))
    (word_min_length word_max_length : pyarg)
    (regex : option string) (exclude_with_spaces : bool) :
  RandomWord.filter re_fullmatch self starts_with ends_with
    (Some []) include_parts_of_speech word_min_length word_max_length
    regex exclude_with_spaces
  = RandomWord.filter re_fullmatch self starts_with ends_with
      None include_parts_of_speech word_min_length word_max_length
      regex exclude_with_spaces
  /\ RandomWord.resolve_categories self (Some []) include_parts_of_speech
     = match include_parts_of_speech with
       | Some (c :: cs) => c :: cs
       | _ => (map_to_list (RandomWord._categories self)).*1
       end
  /\ forall (_default_categories : Defaults -> list string)
       (enhanced_prefixes : bool) (kwargs : list (string * category_source))
       (pool : list string),
       self = RandomWord.__init__ _default_categories enhanced_prefixes kwargs ->
       RandomWord.filter re_fullmatch self starts_with ends_with
         (Some []) include_parts_of_speech word_min_length word_max_length
         regex exclude_with_spaces = Ok pool ->
       exists lo hi,
         RandomWord._validate_lengths word_min_length word_max_length
         = Ok (lo, hi)
         /\ forall w,
              w ∈ pool
              <-> (exists category word_list,
                     match include_parts_of_speech with
                     | Some (c :: cs) => category ∈ c :: cs
                     | _ => True
                     end
                     /\ RandomWord._categories self !! category
                        = Some word_list
                     /\ w ∈ word_list)
                  /\ within lo hi (len w)
                  /\ startswith w starts_with = true
                  /\ endswith w ends_with = true
                  /\ matched re_fullmatch regex w = Some true
                  /\ (exclude_with_spaces = true -> has_space w = false).
Proof.
  assert (RandomWord.resolve_categories self (Some []) include_parts_of_speech
          = match include_parts_of_speech with
            | Some (c :: cs) => c :: cs
            | _ => (map_to_list (RandomWord._categories self)).*1
            end) as Hcats.
  { unfold RandomWord.resolve_categories. simpl.
    by destruct include_parts_of_speech as [[|c cs]|]. }
  split; [by rewrite !filter_stages|]. split; [done|].
  intros _default_categories enhanced_prefixes kwargs pool -> Hf.
  rewrite filter_stages in Hf.
  destruct (RandomWord._validate_lengths word_min_length word_max_length)
    as [[lo hi]|e]; [|done].
  exists lo, hi. split; [done|]. cbn [mbind result_bind fst snd] in Hf.
  apply filter_words_returns in Hf as ->. rewrite Hcats.
  intros w. rewrite elem_of_elements, elem_of_passing, elem_of_selected.
  split.
  - intros [(category & l & Hin & Hl & Hw & Hwithin) Hrest].
    split; [|done]. exists category, l. split; [|done].
    by destruct include_parts_of_speech as [[|c cs]|].
  - intros [(category & l & Hin & Hl & Hw) (Hwithin & Hrest)].
    split; [|done]. exists category, l. split; [|done].
    destruct include_parts_of_speech as [[|c cs]|]; try done;
      apply elem_of_keys; by rewrite Hl.
Qed.

Lemma filter_empty_include_categories_witness :
  exists lo hi,
    RandomWord._validate_lengths (PyInt 4) PyNone = Ok (lo, hi)
    /\ forall w,
         w ∈ ["orange"; "angry"; "apple"]
         <-> (exists category word_list,
                True
                /\ RandomWord._categories
                     (RandomWord.__init__ no_defaults true example_kwargs)
                   !! category = Some word_list
                /\ w ∈ word_list)
             /\ within lo hi (len w)
             /\ startswith w "" = true
             /\ endswith w "" = true
             /\ matched Fragment.fragment_fullmatch None w = Some true
             /\ (false = true -> has_space w = false).
Proof.
  apply (proj2 (proj2 (filter_empty_include_categories
                         Fragment.fragment_fullmatch
                         (RandomWord.__init__ no_defaults true example_kwargs)
                         "" "" None (PyInt 4) PyNone None false))
           no_defaults true example_kwargs ["orange"; "angry"; "apple"]).
  - reflexivity.
  - vm_compute. reflexivity.
Defined.
